(** * server.plugin.ts: the entry router of the virtual-entry dev-server plugin

    A shallow embedding of [serverPlugin(options).configureServer(server)]
    and of the two kinds of middleware it registers, followed by the
    properties of the routing table, of the responses and of the entry cache.

    Conventions of the embedding.
    - JavaScript strings are [string]; [startsWith], [endsWith], [replace]
      and [join] are written out below as the methods behave on a string
      pattern.
    - A plain object used as a dictionary ([Record<string, string>]) is the
      list of its own properties in creation order; [ownEntries] gives the
      order in which [for .. in], spread and [Object.entries] visit them.
    - [entryCache], a [Map<string, string>] used through [has], [get] and
      [set] only, is a [gmap string string].
    - The host (the dev server, [glob], [import.meta]) is a record of
      functions.  [getModuleByUrl] and [transformRequest] give what the
      awaited promise is fulfilled with, [None] for [null] / [undefined].
      [warmupRequest], whose rejection the plugin handles, gives how its
      promise settles.
    - A middleware runs in the monad [M]: it reads and writes the entry cache
      and emits the calls it makes on [console], [res], [next] and the
      server, in program order.  It is an [async] function with one [await]:
      [Async] keeps the part before and the part after apart.  Whether the
      awaited promise is fulfilled or rejected is the host's choice at each
      request: [complete] runs both parts in a row, [settle] runs the second
      one only if the promise is fulfilled, [runTasks] lets the parts of
      several requests interleave and lets promises reject. *)

From Stdlib Require Import Ascii String NArith List Bool Lia Permutation.
From stdpp Require Import base option strings gmap.

Set Warnings "-register-all".

(** Template literals are concatenations of known pieces: let them reduce. *)
#[local] Arguments String.append !_ _ / : simpl nomatch.

(** ** JavaScript strings *)

Module JsString.

(** [s.startsWith(p)]. *)
Definition startsWith (s p : string) : bool := String.prefix p s.

(** [s.endsWith(p)]: the last [p.length] characters of [s] are [p]. *)
Definition endsWith (s p : string) : bool :=
  (String.length p <=? String.length s)%nat &&
  String.eqb
    (String.substring (String.length s - String.length p) (String.length p) s)
    p.

(** Drop the first [n] characters. *)
Fixpoint skip (n : nat) (s : string) : string :=
  match n, s with
  | O, _ => s
  | S n', String _ s' => skip n' s'
  | S _, EmptyString => EmptyString
  end.

(** [s.replace(pat, rep)] for a string pattern: only the first occurrence,
    scanning from the left, is replaced.  [rep] is taken literally (both
    call sites of the plugin pass the empty replacement). *)
Fixpoint replace (s pat rep : string) : string :=
  if String.prefix pat s then rep +:+ skip (String.length pat) s
  else match s with
       | EmptyString => EmptyString
       | String c s' => String c (replace s' pat rep)
       end.

(** [parts.join(sep)]. *)
Definition join (sep : string) (parts : list string) : string :=
  String.concat sep parts.

(** The line feed and the double quote of the literals. *)
Definition LF : string := String (ascii_of_nat 10) EmptyString.
Definition DQ : string := String (ascii_of_nat 34) EmptyString.

End JsString.
Import JsString.

(** ** Plain objects as dictionaries *)

Module JsObject.

(** Own enumerable string-keyed properties, in creation order. *)
Definition t : Type := list (string * string).

Definition digit (c : ascii) : option N :=
  let n := N_of_ascii c in
  if ((48 <=? n) && (n <=? 57))%N then Some (n - 48)%N else None.

Fixpoint digits (acc : N) (s : string) : option N :=
  match s with
  | EmptyString => Some acc
  | String c s' =>
      match digit c with
      | Some d => digits (acc * 10 + d)%N s'
      | None => None
      end
  end.

(** A property key is an array index when it is the canonical decimal
    form of an integer below 2^32 - 1. *)
Definition arrayIndex (k : string) : option N :=
  match k with
  | EmptyString => None
  | String c rest =>
      if (Ascii.eqb c "0"%char) && negb (String.eqb rest EmptyString) then None
      else match digits 0 k with
           | Some n => if (n <? 4294967295)%N then Some n else None
           | None => None
           end
  end.

Definition isIndex (p : string * string) : bool :=
  match arrayIndex (fst p) with Some _ => true | None => false end.

Definition indexOf (p : string * string) : N :=
  match arrayIndex (fst p) with Some n => n | None => 0%N end.

Fixpoint insertByIndex (p : string * string) (l : t) : t :=
  match l with
  | [] => [p]
  | q :: l' =>
      if (indexOf p <? indexOf q)%N then p :: q :: l'
      else q :: insertByIndex p l'
  end.

Fixpoint sortByIndex (l : t) : t :=
  match l with
  | [] => []
  | p :: l' => insertByIndex p (sortByIndex l')
  end.

(** The order of [for .. in], of spread and of [Object.entries]:
    array-index keys by ascending value, then the other keys in creation
    order. *)
Definition ownEntries (o : t) : t :=
  sortByIndex (List.filter isIndex o) ++
  List.filter (fun p => negb (isIndex p)) o.

(** The property [k] of [o] defined as [v], as a spread does for each
    property it copies: an existing property keeps its place, a new one
    comes last, whatever the key. *)
Fixpoint set (o : t) (k v : string) : t :=
  match o with
  | [] => [(k, v)]
  | (k', v') :: o' =>
      if String.eqb k' k then (k', v) :: o' else (k', v') :: set o' k v
  end.

Definition assign (o src : t) : t :=
  fold_left (fun acc p => set acc (fst p) (snd p)) (ownEntries src) o.

(** [{ ...a, ...b }]. *)
Definition spread2 (a b : t) : t := assign (assign [] a) b.

(** [Object.prototype.hasOwnProperty.call(o, k)]. *)
Definition has (o : t) (k : string) : bool :=
  existsb (fun p => String.eqb (fst p) k) o.

(** [o[k] = v], an assignment.  Unlike spread, which defines the property,
    an assignment under the key [__proto__] reaches the accessor of
    [Object.prototype] unless the object has the key as an own property;
    the accessor ignores a value that is a string, so nothing is added. *)
Definition put (o : t) (k v : string) : t :=
  if String.eqb k "__proto__" && negb (has o k) then o else set o k v.

(** fp-ts [record.filterWithIndex(p)]:
    [[
      const out = {}; let changed = false
      for (const key in fa)
        if (has.call(fa, key)) {
          const a = fa[key]
          if (predicateWithIndex(key, a)) out[key] = a
          else changed = true
        }
      return changed ? out : fa
    ]]
    a fresh object with the kept properties, or the argument itself when
    nothing was dropped. *)
Definition filterStep (p : string -> string -> bool) (acc : t * bool)
    (kv : string * string) : t * bool :=
  if p (fst kv) (snd kv) then (put (fst acc) (fst kv) (snd kv), snd acc)
  else (fst acc, true).

Definition filterWithIndex (p : string -> string -> bool) (fa : t) : t :=
  let '(out, changed) := fold_left (filterStep p) (ownEntries fa) ([], false) in
  if changed then out else fa.

(** The pairs an assignment adds to an object made by [{}]. *)
Definition assignable (kv : string * string) : bool :=
  negb (String.eqb (fst kv) "__proto__").

(** fp-ts [record.filter(p)]. *)
Definition filter (p : string -> bool) (fa : t) : t :=
  filterWithIndex (fun _ a => p a) fa.

(** A dictionary has each key once. *)
Definition wf (o : t) : Prop := List.NoDup (List.map fst o).

End JsObject.

(** ** The host: dev server, module graph, glob *)

(** [TransformResult]: only [code] is read. *)
Record TransformResult := { code : string }.

(** [ModuleNode]: the fields the plugin reads.  [importedModules] is a
    [Set<ModuleNode>], listed in insertion order as [Array.from] gives it. *)
Inductive ModuleNode :=
  mkModuleNode (file : option string)
               (transformResult : option TransformResult)
               (importedModules : list ModuleNode).

Definition file (m : ModuleNode) : option string :=
  let (f, _, _) := m in f.
Definition transformResult (m : ModuleNode) : option TransformResult :=
  let (_, t, _) := m in t.
Definition importedModules (m : ModuleNode) : list ModuleNode :=
  let (_, _, i) := m in i.

(** How a promise settles. *)
Inductive Settled := Fulfilled | Rejected (reason : string).

(** The dev server handed to [configureServer]. *)
Record ViteDevServer := {
  (** [server.config.build.rollupOptions.input as Record<string, string>] *)
  input : JsObject.t;
  (** [await server.moduleGraph.getModuleByUrl(url)] *)
  getModuleByUrl : string -> option ModuleNode;
  (** [await server.transformRequest(url)] *)
  transformRequest : string -> option TransformResult;
  (** how the promise of [server.warmupRequest(url)] settles *)
  warmupRequest : string -> Settled
}.

(** What the module reads besides the server. *)
Record Platform := {
  (** [glob.sync(pattern, { nodir: true, absolute: true,
      ignore: ['**/node_modules/**', '**/.git/**'] })] *)
  globSync : string -> list string;
  (** [import.meta.dirname] *)
  dirname : string
}.

Record ServerPluginOptions := { exposedFolders : option (list string) }.

Record IncomingMessage := { originalUrl : option string }.

(** ** Effects *)

(** The two closures passed to [middlewares.use], by what they capture. *)
Inductive Middleware :=
| ExposedFile (folder file : string)
| Entry (name input : string).

(** An argument of a [console] call. *)
Inductive LogArg :=
| LStr (s : string)
| LObj (o : JsObject.t)
| LArr (l : list string)
| LErr (reason : string).

Inductive Event :=
| ConsoleDebug (args : list LogArg)
| ConsoleError (args : list LogArg)
| GlobSync (pattern : string)
| Use (route : string) (handler : Middleware)
| WarmupRequest (url : string)
(** [.catch(err => console.error(`Error warming up request for ${name}:`, err))]
    on the promise of the warm-up just issued *)
| Catch (name : string)
| TransformRequest (url : string)
| GetModuleByUrl (url : string)
| SetHeader (name value : string)
| End_ (body : string)
| Next.

(** State: the entry cache.  Output: the calls made, in order. *)
Definition M (A : Type) : Type :=
  gmap string string -> A * gmap string string * list Event.

Definition ret {A} (a : A) : M A := fun c => (a, c, []).

Definition bind {A B} (m : M A) (k : A -> M B) : M B :=
  fun c =>
    let '(a, c1, t1) := m c in
    let '(b, c2, t2) := k a c1 in
    (b, c2, t1 ++ t2).

Notation "x <- m ;; k" := (bind m (fun x => k))
  (at level 100, m at next level, right associativity).
Notation "m ;; k" := (bind m (fun _ => k))
  (at level 100, right associativity).

Definition emit (e : Event) : M unit := fun c => (tt, c, [e]).

Definition cacheNew : M unit := fun _ => (tt, ∅, []).
Definition cacheHas (k : string) : M bool :=
  fun c => (bool_decide (is_Some (c !! k)), c, []).
Definition cacheGet (k : string) : M (option string) :=
  fun c => (c !! k, c, []).
Definition cacheSet (k v : string) : M unit :=
  fun c => (tt, <[k := v]> c, []).

Fixpoint forEach {A} (l : list A) (f : A -> M unit) : M unit :=
  match l with
  | [] => ret tt
  | a :: l' => f a ;; forEach l' f
  end.

(** An [async] function: it runs up to its first [await] and hands back what
    is left to run once the awaited promise is fulfilled, if anything.  The
    middlewares have no [try] around their [await]: when the awaited promise
    is rejected instead, what is left never runs, and the promise of the
    call, which the router does not look at, is rejected in its turn. *)
Definition Async : Type := M (option (M unit)).

Definition finished : Async := ret None.
Definition await (rest : M unit) : Async := ret (Some rest).

(** The function run with no other task between its two parts, the awaited
    promise settling as given. *)
Definition settle (outcome : Settled) (f : Async) : M unit :=
  rest <- f ;;
  match rest, outcome with
  | Some k, Fulfilled => k
  | Some _, Rejected _ => ret tt
  | None, _ => ret tt
  end.

(** The same, the awaited promise fulfilled. *)
Definition complete (f : Async) : M unit :=
  rest <- f ;;
  match rest with
  | Some k => k
  | None => ret tt
  end.

Definition cacheOf {A} (r : A * gmap string string * list Event) : gmap string string :=
  snd (fst r).
Definition traceOf {A} (r : A * gmap string string * list Event) : list Event :=
  snd r.

(** [a ?? b] *)
Definition nullish {A} (a : option A) (b : A) : A :=
  match a with Some x => x | None => b end.

(** [!req.originalUrl?.startsWith(prefix)] *)
Definition urlMismatch (req : IncomingMessage) (prefix : string) : bool :=
  negb (nullish (option_map (fun u => startsWith u prefix) (originalUrl req)) false).

(** Truthiness of [transformed?.code]. *)
Definition truthy (s : option string) : bool :=
  match s with
  | Some s => negb (String.eqb s EmptyString)
  | None => false
  end.

Definition contentType : string := "Content-Type".
Definition javascript : string := "application/javascript".
Definition css : string := "text/css".
Definition cssBundleMarker : string := "// type: cssBundle".

(** ** The middlewares *)

(** Lines 85-88: the middleware of an exposed file, once the promise of
    [server.transformRequest] is fulfilled, with [transformed] the value it
    is fulfilled with. *)
Definition exposedFileAfterAwait (server : ViteDevServer) (folder file : string)
    : M unit :=
  let transformed := transformRequest server (folder +:+ "/" +:+ file) in
  emit (SetHeader contentType javascript) ;;
  emit (End_ (nullish (option_map code transformed) EmptyString)).

(** Lines 78-89: the middleware of one file of an exposed folder.  Its
    [await] is that of line 85; if that promise is rejected the function
    ends there, with no header set, no body sent and [next] not called. *)
Definition exposedFileMiddleware (server : ViteDevServer) (folder file : string)
    (req : IncomingMessage) : Async :=
  if urlMismatch req ("/" +:+ file) then emit Next ;; finished
  else
    emit (ConsoleDebug [LStr ("Request for the extra folder " +:+ DQ +:+ folder +:+ DQ
                              +:+ ", serving file: " +:+ file)]) ;;
    emit (TransformRequest (folder +:+ "/" +:+ file)) ;;
    await (exposedFileAfterAwait server folder file).

(** Lines 130-134: the files of the imported modules, without [dirname]. *)
Definition importedFilesOf (plat : Platform) (module : option ModuleNode) : list string :=
  List.map (fun file => replace file (dirname plat) EmptyString)
    (omap file (nullish (option_map importedModules module) [])).

(** Line 136. *)
Definition isCssOnly (importedFiles : list string) : bool :=
  (0 <? List.length importedFiles)%nat &&
  forallb (fun file => endsWith file ".css") importedFiles.

(** Line 141. *)
Definition cssBundleOf (importedFiles : list string) : string :=
  join LF (List.map (fun file => "@import '" +:+ file +:+ "';") importedFiles).

(** Lines 152-159: the tail of the entry middleware. *)
Definition serveInput (name input : string) (transformed : option TransformResult) : M unit :=
  emit (ConsoleDebug [LStr ("Request for " +:+ name +:+ ", serving input file "
                            +:+ DQ +:+ input +:+ DQ)]) ;;
  emit (SetHeader contentType javascript) ;;
  emit (End_ (nullish (option_map code transformed) EmptyString)) ;;
  if truthy (option_map code transformed)
  then cacheSet name (nullish (option_map code transformed) EmptyString)
  else ret tt.

(** Lines 125-159: the middleware of an entry, once the promise of
    [server.moduleGraph.getModuleByUrl] is fulfilled, with [module] the
    value it is fulfilled with. *)
Definition entryAfterAwait (plat : Platform) (server : ViteDevServer)
    (name input : string) : M unit :=
  let module := getModuleByUrl server input in
  let transformed := module ≫= transformResult in
  if startsWith input "virtual:" then
    let importedFiles := importedFilesOf plat module in
    if isCssOnly importedFiles then
      emit (ConsoleDebug [LStr ("Request for " +:+ name +:+ ", serving CSS only file")]) ;;
      let cssBundle := cssBundleOf importedFiles in
      emit (SetHeader contentType css) ;;
      emit (End_ (cssBundleMarker +:+ LF +:+ LF +:+ cssBundle)) ;;
      cacheSet name cssBundle
    else serveInput name input transformed
  else serveInput name input transformed.

(** Lines 105-160: the middleware of one entry.  Its [await] is that of
    line 125, reached when the name is not cached; if that promise is
    rejected the function ends there, with no header set, no body sent, the
    cache not written and [next] not called. *)
Definition entryMiddleware (plat : Platform) (server : ViteDevServer) (name input : string)
    (req : IncomingMessage) : Async :=
  if urlMismatch req ("/" +:+ name) then emit Next ;; finished
  else
    hit <- cacheHas name ;;
    if hit then
      emit (ConsoleDebug [LStr ("Serving cached entry for " +:+ name)]) ;;
      cached <- cacheGet name ;;
      let contents := nullish cached EmptyString in
      emit (SetHeader contentType
              (if startsWith contents cssBundleMarker then css else javascript)) ;;
      emit (End_ contents) ;;
      finished
    else
      emit (GetModuleByUrl input) ;;
      await (entryAfterAwait plat server name input).

(** The body the entry middleware sends when it does not take the CSS
    branch, and whether it takes it (lines 129-138). *)
Definition codeOf (server : ViteDevServer) (input : string) : string :=
  nullish (option_map code (getModuleByUrl server input ≫= transformResult)) EmptyString.

Definition takesCssBranch (plat : Platform) (server : ViteDevServer) (input : string) : bool :=
  startsWith input "virtual:" &&
  isCssOnly (importedFilesOf plat (getModuleByUrl server input)).

(** A registered closure applied to a request: up to its [await], and run
    with nothing else in between, the host call it awaits fulfilled
    ([handle]) or settling as given ([handleSettling]). *)
Definition call (plat : Platform) (server : ViteDevServer) (h : Middleware)
    (req : IncomingMessage) : Async :=
  match h with
  | ExposedFile folder file => exposedFileMiddleware server folder file req
  | Entry name input => entryMiddleware plat server name input req
  end.

Definition handle (plat : Platform) (server : ViteDevServer) (h : Middleware)
    (req : IncomingMessage) : M unit :=
  complete (call plat server h req).

Definition handleSettling (outcome : Settled) (plat : Platform) (server : ViteDevServer)
    (h : Middleware) (req : IncomingMessage) : M unit :=
  settle outcome (call plat server h req).

(** ** [configureServer] *)

(** Lines 46-50. *)
Definition nonVirtualInputs (inputs : JsObject.t) : JsObject.t :=
  JsObject.filterWithIndex (fun _ file => negb (endsWith file "index.html"))
    (JsObject.filter (fun entry => negb (startsWith entry "virtual:")) inputs).

(** Lines 55-58. *)
Definition virtualInputs (inputs : JsObject.t) : JsObject.t :=
  JsObject.filter (fun entry => startsWith entry "virtual:") inputs.

(** What the two filters find in the whole map: every locator virtual,
    none virtual, none a page.  A filter that finds all its pairs to keep
    hands its argument back. *)
Definition allVirtual (inputs : JsObject.t) : bool :=
  forallb (fun kv => startsWith (snd kv) "virtual:") (JsObject.ownEntries inputs).

Definition noneVirtual (inputs : JsObject.t) : bool :=
  forallb (fun kv => negb (startsWith (snd kv) "virtual:")) (JsObject.ownEntries inputs).

Definition noPage (inputs : JsObject.t) : bool :=
  forallb (fun kv => negb (endsWith (snd kv) "index.html")) (JsObject.ownEntries inputs).

(** Lines 68-74: the files of one exposed folder, as routed. *)
Definition exposedFiles (plat : Platform) (folder : string) : list string :=
  List.map (fun file => replace file (folder +:+ "/") EmptyString)
    (globSync plat (folder +:+ "/**/*")).

(** Lines 66-91. *)
Definition exposeFolder (plat : Platform) (folder : string) : M unit :=
  emit (GlobSync (folder +:+ "/**/*")) ;;
  forEach (exposedFiles plat folder)
    (fun file => emit (Use ("/" +:+ file) (ExposedFile folder file))).

(** Line 97: [Object.entries({ ...virtualInputs, ...nonVirtualInputs })]. *)
Definition routedEntries (inputs : JsObject.t) : list (string * string) :=
  JsObject.ownEntries
    (JsObject.spread2 (virtualInputs inputs) (nonVirtualInputs inputs)).

(** Lines 97-161, one iteration. *)
Definition registerEntry (entry : string * string) : M unit :=
  let '(name, input) := entry in
  emit (ConsoleDebug [LStr ("Warming up entry: " +:+ name +:+ " -> " +:+ input)]) ;;
  emit (WarmupRequest input) ;;
  emit (Catch name) ;;
  emit (Use ("/" +:+ name) (Entry name input)).

(** Lines 38-162, up to the return of the hook. *)
Definition configureServer (plat : Platform) (options : option ServerPluginOptions)
    (server : ViteDevServer) : M unit :=
  let inputs := input server in
  emit (ConsoleDebug [LStr "Inputs"; LObj inputs]) ;;
  emit (ConsoleDebug [LStr "Non-virtual inputs"; LObj (nonVirtualInputs inputs)]) ;;
  emit (ConsoleDebug [LStr "Virtual inputs"; LObj (virtualInputs inputs)]) ;;
  match options ≫= exposedFolders with
  | Some folders =>
      emit (ConsoleDebug [LStr "Exposed folders"; LArr folders]) ;;
      forEach folders (exposeFolder plat)
  | None => ret tt
  end ;;
  cacheNew ;;
  forEach (routedEntries inputs) registerEntry.

(** The jobs that run after the hook has returned: the rejection handlers of
    the warm-up promises.  A rejected promise without a handler would be an
    unhandled rejection. *)
Inductive Job :=
| LogWarmupError (name reason : string)
| UnhandledRejection (reason : string).

Fixpoint pendingJobs (server : ViteDevServer) (trace : list Event) : list Job :=
  match trace with
  | [] => []
  | WarmupRequest url :: rest =>
      match warmupRequest server url, rest with
      | Fulfilled, _ => pendingJobs server rest
      | Rejected err, Catch name :: _ => LogWarmupError name err :: pendingJobs server rest
      | Rejected err, _ => UnhandledRejection err :: pendingJobs server rest
      end
  | _ :: rest => pendingJobs server rest
  end.

(** Lines 100-102: the body of a rejection handler. *)
Definition runJob (j : Job) : list Event :=
  match j with
  | LogWarmupError name err =>
      [ConsoleError [LStr ("Error warming up request for " +:+ name +:+ ":"); LErr err]]
  | UnhandledRejection _ => []
  end.

(** ** Reading a trace *)

Definition routesOf (trace : list Event) : list (string * Middleware) :=
  omap (fun e => match e with Use r h => Some (r, h) | _ => None end) trace.

Definition warmupsOf (trace : list Event) : list string :=
  omap (fun e => match e with WarmupRequest u => Some u | _ => None end) trace.

(** The calls on [res]. *)
Definition responseOf (trace : list Event) : list Event :=
  List.filter (fun e => match e with SetHeader _ _ | End_ _ => true | _ => false end) trace.

Definition nextCalls (trace : list Event) : nat :=
  List.length (List.filter (fun e => match e with Next => true | _ => false end) trace).

Definition lookupsOf (trace : list Event) : list string :=
  omap (fun e => match e with GetModuleByUrl u => Some u | _ => None end) trace.

(** A sequence of requests, each given to one registered closure and run to
    completion before the following one starts. *)
Fixpoint serve (plat : Platform) (server : ViteDevServer)
    (reqs : list (Middleware * IncomingMessage)) : M unit :=
  match reqs with
  | [] => ret tt
  | (h, req) :: reqs' => handle plat server h req ;; serve plat server reqs'
  end.

(** ** Requests in flight

    The host runs one task at a time: the part of a middleware up to its
    [await], or the part after it.  Between the two parts of one request the
    tasks of other requests may run; the closures that wait are kept in
    arrival order.  A closure that waits is resumed when its promise is
    fulfilled and dropped when it is rejected. *)
Record Node := {
  entryCache : gmap string string;
  inFlight : list (M unit)
}.

Inductive Task :=
| Arrive (h : Middleware) (req : IncomingMessage)
| Resume (i : nat)
| Reject (i : nat).

Definition runTask (plat : Platform) (server : ViteDevServer) (t : Task) (n : Node)
    : Node * list Event :=
  match t with
  | Arrive h req =>
      let '(rest, c, trace) := call plat server h req (entryCache n) in
      ({| entryCache := c;
          inFlight := inFlight n ++ match rest with Some k => [k] | None => [] end |},
       trace)
  | Resume i =>
      match inFlight n !! i with
      | Some k =>
          let '(_, c, trace) := k (entryCache n) in
          ({| entryCache := c; inFlight := delete i (inFlight n) |}, trace)
      | None => (n, [])
      end
  | Reject i =>
      ({| entryCache := entryCache n; inFlight := delete i (inFlight n) |}, [])
  end.

Fixpoint runTasks (plat : Platform) (server : ViteDevServer) (ts : list Task) (n : Node)
    : Node * list Event :=
  match ts with
  | [] => (n, [])
  | t :: ts' =>
      let '(n1, trace1) := runTask plat server t n in
      let '(n2, trace2) := runTasks plat server ts' n1 in
      (n2, trace1 ++ trace2)
  end.

(** A closure that never unbinds a name. *)
Definition keepsNames (k : M unit) : Prop :=
  forall (c : gmap string string) name,
    is_Some (c !! name) -> is_Some (cacheOf (k c) !! name).

(** ** What the claims speak of *)

(** [s] begins with [p] / ends in [p], said without the string methods. *)
Definition beginsWith (s p : string) : Prop := exists rest, s = p +:+ rest.
Definition endsIn (s p : string) : Prop := exists front, s = front +:+ p.

(** The URL of the request begins with the route. *)
Definition matches (req : IncomingMessage) (route : string) : Prop :=
  exists url, originalUrl req = Some url /\ beginsWith url route.

(** The closure, given a matching request, reaches its [await]: always for
    an exposed file, when the name is not bound in the cache for an entry. *)
Definition awaits (h : Middleware) (c : gmap string string) : Prop :=
  match h with
  | ExposedFile _ _ => True
  | Entry name _ => c !! name = None
  end.

(** The route a closure is registered at. *)
Definition routeOf (h : Middleware) : string :=
  match h with
  | ExposedFile _ file => "/" +:+ file
  | Entry name _ => "/" +:+ name
  end.

(** The routing table, as the claims describe it: the routes of the exposed
    files, then those of the entries. *)
Definition exposedRoutes (plat : Platform) (folders : list string)
    : list (string * Middleware) :=
  List.flat_map
    (fun folder =>
       List.map
         (fun path =>
            let file := replace path (folder +:+ "/") EmptyString in
            ("/" +:+ file, ExposedFile folder file))
         (globSync plat (folder +:+ "/**/*")))
    folders.

Definition entryRoutes (inputs : JsObject.t) : list (string * Middleware) :=
  List.map (fun entry => ("/" +:+ fst entry, Entry (fst entry) (snd entry)))
    (routedEntries inputs).

(** The calls of the loops of [configureServer]: one exposed folder, one
    entry, the whole exposed-folder block. *)
Definition exposeTrace (plat : Platform) (folder : string) : list Event :=
  GlobSync (folder +:+ "/**/*") ::
  List.map (fun file => Use ("/" +:+ file) (ExposedFile folder file))
    (exposedFiles plat folder).

Definition registerTrace (entry : string * string) : list Event :=
  [ConsoleDebug [LStr ("Warming up entry: " +:+ fst entry +:+ " -> " +:+ snd entry)];
   WarmupRequest (snd entry);
   Catch (fst entry);
   Use ("/" +:+ fst entry) (Entry (fst entry) (snd entry))].

Definition foldersTrace (plat : Platform) (options : option ServerPluginOptions)
    : list Event :=
  match options ≫= exposedFolders with
  | Some folders =>
      ConsoleDebug [LStr "Exposed folders"; LArr folders] ::
      List.flat_map (exposeTrace plat) folders
  | None => []
  end.




Definition transformsOf (trace : list Event) : list string :=
  omap (fun e => match e with TransformRequest u => Some u | _ => None end) trace.

(** A virtual entry all of whose collected imports are style sheets. *)
Definition cssOnly (plat : Platform) (server : ViteDevServer) (input : string) : Prop :=
  beginsWith input "virtual:" /\
  importedFilesOf plat (getModuleByUrl server input) <> [] /\
  Forall (fun file => endsIn file ".css")
    (importedFilesOf plat (getModuleByUrl server input)).

(** ** A project to run the model on

    The entry map of the test suite with one more entry, a module graph with
    one module per kind of entry, and an exposed folder [public] holding
    [a.js] and [sub/b.css] under the working directory [/proj]. *)

Module Sample.

Definition plat : Platform := {|
  globSync := fun pattern =>
    if String.eqb pattern "public/**/*"
    then ["/proj/public/a.js"; "/proj/public/sub/b.css"]
    else [];
  dirname := "/proj/"
|}.

Definition options : option ServerPluginOptions :=
  Some {| exposedFolders := Some ["public"] |}.

Definition leaf (path : string) : ModuleNode := mkModuleNode (Some path) None [].

Definition cssModule : ModuleNode :=
  mkModuleNode None (Some {| code := ":root { --color: red; }" |})
    [leaf "/proj/a.css"; mkModuleNode None None []; leaf "/proj/b.css"].

Definition mixedModule : ModuleNode :=
  mkModuleNode None (Some {| code := "import '/a.css'; import '/b.js';" |})
    [leaf "/proj/a.css"; leaf "/proj/b.js"].

Definition bareModule : ModuleNode :=
  mkModuleNode None (Some {| code := "export default 1;" |}) [].

Definition mainModule : ModuleNode :=
  mkModuleNode (Some "/proj/src/main.ts") (Some {| code := "console.log(1);" |}) [].

Definition emptyModule : ModuleNode :=
  mkModuleNode (Some "/proj/src/empty.ts") (Some {| code := EmptyString |}) [].

Definition pendingModule : ModuleNode :=
  mkModuleNode (Some "/proj/src/pending.ts") None [].

Definition moduleGraph (url : string) : option ModuleNode :=
  if String.eqb url "virtual:css" then Some cssModule
  else if String.eqb url "virtual:main" then Some mixedModule
  else if String.eqb url "virtual:bare" then Some bareModule
  else if String.eqb url "src/main.ts" then Some mainModule
  else if String.eqb url "src/empty.ts" then Some emptyModule
  else if String.eqb url "src/pending.ts" then Some pendingModule
  else None.

Definition server : ViteDevServer := {|
  input := [("main", "src/main.ts"); ("virtual:main", "virtual:main");
            ("virtual:css", "virtual:css"); ("index.html", "index.html");
            ("empty", "src/empty.ts")];
  getModuleByUrl := moduleGraph;
  transformRequest := fun url =>
    if String.eqb url "public//proj/a.js" then Some {| code := "export {};" |}
    else None;
  warmupRequest := fun url =>
    if String.eqb url "virtual:main" then Rejected "warm-up failed" else Fulfilled
|}.

(** A second entry map: the pages of a multi-page application under the
    keys [main] and [nested], and a script under a key that ends in
    [index.html]. *)
Definition pages : ViteDevServer := {|
  input := [("main", "index.html"); ("nested", "nested/index.html");
            ("index.html", "src/app.ts")];
  getModuleByUrl := moduleGraph;
  transformRequest := fun _ => None;
  warmupRequest := fun _ => Fulfilled
|}.

(** Two more: scripts only, one of them under the own key [__proto__] (a
    computed key, or a map read with [JSON.parse]), and the same with a page. *)
Definition scripts : ViteDevServer := {|
  input := [("__proto__", "src/a.ts"); ("x", "src/x.ts")];
  getModuleByUrl := moduleGraph;
  transformRequest := fun _ => None;
  warmupRequest := fun _ => Fulfilled
|}.

Definition scriptsAndPage : ViteDevServer := {|
  input := [("__proto__", "src/a.ts"); ("x", "src/x.ts"); ("page", "index.html")];
  getModuleByUrl := moduleGraph;
  transformRequest := fun _ => None;
  warmupRequest := fun _ => Fulfilled
|}.

Definition get (url : string) : IncomingMessage := {| originalUrl := Some url |}.

(** [GET url], given to the middleware of the entry [name -> input] and run
    to completion. *)
Definition request (name input url : string) : M unit :=
  handle plat server (Entry name input) (get url).

End Sample.

(** ** The mocks of the test suite

    [server-plugin.test.ts] drives the plugin with a mocked server, a mocked
    [glob] and hand-made requests; the same mocks, to run the model on the
    cases the tests assert. *)

Module Mock.

Definition config : JsObject.t :=
  [("main", "src/main.ts"); ("virtual:main", "virtual:main");
   ("virtual:css", "virtual:css"); ("index.html", "index.html")].

(** [getModuleByUrl.mockResolvedValue(module)],
    [transformRequest.mockResolvedValue(transformed)],
    [warmupRequest: vi.fn().mockResolvedValue(undefined)]. *)
Definition server (inputs : JsObject.t) (module : option ModuleNode)
    (transformed : option TransformResult) : ViteDevServer := {|
  input := inputs;
  getModuleByUrl := fun _ => module;
  transformRequest := fun _ => transformed;
  warmupRequest := fun _ => Fulfilled
|}.

(** [vi.mocked(glob.sync).mockReturnValue(files)]. *)
Definition platform (files : list string) : Platform := {|
  globSync := fun _ => files;
  dirname := "/repo/src"
|}.

Definition exposePublic : option ServerPluginOptions :=
  Some {| exposedFolders := Some ["public"] |}.

Definition req (url : string) : IncomingMessage := {| originalUrl := Some url |}.

Definition logTest : string := "console.log(" +:+ DQ +:+ "test" +:+ DQ +:+ ");".
Definition logMain : string := "console.log(" +:+ DQ +:+ "main" +:+ DQ +:+ ");".

Definition mainModule : ModuleNode :=
  mkModuleNode None (Some {| code := logMain |}) [].

Definition cssModule : ModuleNode :=
  mkModuleNode None (Some {| code := ":root { --color: red; }" |})
    [mkModuleNode (Some "styles/style1.css") None [];
     mkModuleNode (Some "styles/style2.css") None []].

End Mock.

(** ** More to read off a run *)

Definition globsOf (trace : list Event) : list string :=
  omap (fun e => match e with GlobSync pattern => Some pattern | _ => None end) trace.

Definition headersOf (trace : list Event) : list (string * string) :=
  omap (fun e => match e with SetHeader k v => Some (k, v) | _ => None end) trace.

(** What a closure has left to run after its [await]. *)
Definition afterAwait (plat : Platform) (server : ViteDevServer) (h : Middleware)
    : M unit :=
  match h with
  | ExposedFile folder file => exposedFileAfterAwait server folder file
  | Entry name input => entryAfterAwait plat server name input
  end.

(** The closures that requests reach in a schedule. *)
Definition arrivals (tasks : list Task) : list Middleware :=
  omap (fun t => match t with Arrive h _ => Some h | _ => None end) tasks.

(** The schedule in which every request resumes before the following one
    arrives. *)
Definition sequential (reqs : list (Middleware * IncomingMessage)) : list Task :=
  List.flat_map (fun r => [Arrive (fst r) (snd r); Resume 0]) reqs.

(** Requests for one entry, run one after the other, the host in the state
    given with each request. *)
Fixpoint serveEntry (plat : Platform) (name input : string)
    (reqs : list (ViteDevServer * IncomingMessage)) : M unit :=
  match reqs with
  | [] => ret tt
  | (server, req) :: reqs' =>
      handle plat server (Entry name input) req ;; serveEntry plat name input reqs'
  end.

(** A schedule in which the host may be in another state at each task. *)
Fixpoint runSchedule (plat : Platform) (schedule : list (ViteDevServer * Task)) (n : Node)
    : Node * list Event :=
  match schedule with
  | [] => (n, [])
  | (server, t) :: schedule' =>
      let '(n1, trace1) := runTask plat server t n in
      let '(n2, trace2) := runSchedule plat schedule' n1 in
      (n2, trace1 ++ trace2)
  end.

(** A closure that leaves the binding of a name as it finds it. *)
Definition keepsBinding (name : string) (k : M unit) : Prop :=
  forall (c : gmap string string) body,
    c !! name = Some body -> cacheOf (k c) !! name = Some body.

(** No cached body is the empty string. *)
Definition nonEmptyBodies (c : gmap string string) : Prop :=
  forall name body, c !! name = Some body -> body <> EmptyString.

(** No key of the dictionary is integer-like. *)
Definition noIndexKey (o : JsObject.t) : Prop :=
  Forall (fun p => JsObject.isIndex p = false) o.

(** No key is integer-like and none is [__proto__]: the keys for which a
    dictionary is its list of pairs. *)
Definition plainKeys (o : JsObject.t) : Prop :=
  noIndexKey o /\ Forall (fun p => JsObject.assignable p = true) o.

(** The entry can be cached: its first answer is a CSS bundle or a
    non-empty code. *)
Definition cacheable (plat : Platform) (server : ViteDevServer) (input : string) : Prop :=
  cssOnly plat server input \/ codeOf server input <> EmptyString.

(** A host whose module for every locator is a script that begins with
    the words of the bundle marker, and a host that has lost its modules. *)
Definition markedServer : ViteDevServer :=
  Mock.server Mock.config
    (Some (mkModuleNode None
             (Some {| code := "// type: cssBundle is what the replay looks for" |}) []))
    None.

Definition emptiedServer : ViteDevServer := Mock.server Mock.config None None.

(** The module of [virtual:css] in the sample project without its import
    that has no file. *)
Definition trimmedServer : ViteDevServer :=
  Mock.server Mock.config
    (Some (mkModuleNode None (Some {| code := ":root { --color: red; }" |})
             [Sample.leaf "/proj/a.css"; Sample.leaf "/proj/b.css"]))
    None.

(** The order of the entry routes on plain keys: the virtual entries, then
    the others that are no page. *)
Definition virtualFirst (inputs : JsObject.t) : list (string * string) :=
  List.filter (fun e => startsWith (snd e) "virtual:") inputs ++
  List.filter (fun e => negb (startsWith (snd e) "virtual:")
                        && negb (endsWith (snd e) "index.html")) inputs.

(** * Properties *)

(** ** Strings *)

Section StringFacts.

Lemma prefix_beginsWith (p s : string) :
  String.prefix p s = true <-> beginsWith s p.
Proof.
  revert s; induction p as [|a p IH]; intros s; simpl.
  - destruct s; split; intros; try reflexivity; eexists; reflexivity.
  - destruct s as [|b s]; simpl.
    + split; [discriminate | intros [r Hr]; discriminate].
    + destruct (ascii_dec a b) as [->|Hne].
      * rewrite IH. split; intros [r Hr]; exists r; simpl in *; congruence.
      * split; [discriminate | intros [r Hr]; simpl in Hr; congruence].
Qed.

Lemma startsWith_beginsWith (s p : string) :
  startsWith s p = true <-> beginsWith s p.
Proof. apply prefix_beginsWith. Qed.

Lemma startsWith_false (s p : string) :
  startsWith s p = false <-> ~ beginsWith s p.
Proof.
  rewrite <- startsWith_beginsWith. destruct (startsWith s p); split;
    congruence.
Qed.

Lemma length_append (a b : string) :
  String.length (a +:+ b) = String.length a + String.length b.
Proof. induction a; simpl; congruence. Qed.

Lemma substring_full (s : string) :
  String.substring 0 (String.length s) s = s.
Proof. induction s; simpl; congruence. Qed.

Lemma substring_skip_front (front s : string) (m : nat) :
  String.substring (String.length front) m (front +:+ s) = String.substring 0 m s.
Proof. induction front; simpl; auto. Qed.

Lemma split_at (n : nat) (s : string) :
  n <= String.length s ->
  exists front back, s = front +:+ back /\ String.length front = n.
Proof.
  revert s; induction n as [|n IH]; intros s Hn.
  - exists EmptyString, s. auto.
  - destruct s as [|a s]; simpl in Hn; [lia|].
    destruct (IH s) as (f & b & -> & Hl); [lia|].
    exists (String a f), b. simpl. auto.
Qed.

Lemma endsWith_endsIn (s p : string) :
  endsWith s p = true <-> endsIn s p.
Proof.
  unfold endsWith, endsIn. rewrite andb_true_iff, Nat.leb_le, String.eqb_eq.
  split.
  - intros [Hle Hsub].
    destruct (split_at (String.length s - String.length p) s) as (f & b & Hs & Hl);
      [lia|].
    subst s. rewrite length_append in *.
    assert (Hb : String.length b = String.length p) by lia.
    replace (String.length f + String.length b - String.length p)
      with (String.length f) in Hsub by lia.
    rewrite substring_skip_front, <- Hb, substring_full in Hsub.
    exists f. congruence.
  - intros [f ->]. rewrite length_append. split; [lia|].
    replace (String.length f + String.length p - String.length p)
      with (String.length f) by lia.
    rewrite substring_skip_front. apply substring_full.
Qed.

Lemma endsWith_false (s p : string) :
  endsWith s p = false <-> ~ endsIn s p.
Proof.
  rewrite <- endsWith_endsIn. destruct (endsWith s p); split; congruence.
Qed.

Lemma skip_append (p s : string) : skip (String.length p) (p +:+ s) = s.
Proof. induction p; simpl; auto. Qed.

Lemma prefix_append (p s : string) : String.prefix p (p +:+ s) = true.
Proof. apply prefix_beginsWith. exists s. reflexivity. Qed.

(** A pattern at the front of the string is the occurrence replaced. *)
Lemma replace_front (p s rep : string) :
  replace (p +:+ s) p rep = rep +:+ s.
Proof.
  assert (H : forall t, String.prefix p t = true ->
                        replace t p rep = rep +:+ skip (String.length p) t).
  { intros t Ht. destruct t; cbn [replace]; rewrite Ht; reflexivity. }
  rewrite H by apply prefix_append. rewrite skip_append. reflexivity.
Qed.

(** Without an occurrence of the pattern the string is left as it is. *)
Lemma replace_absent (s p rep : string) :
  (forall front back, s <> front +:+ p +:+ back) -> replace s p rep = s.
Proof.
  induction s as [|a s IH]; intros Habs.
  - cbn [replace]. destruct (String.prefix p EmptyString) eqn:Hp; [|reflexivity].
    apply prefix_beginsWith in Hp as [rest Hrest].
    exfalso. apply (Habs EmptyString rest). exact Hrest.
  - cbn [replace]. destruct (String.prefix p (String a s)) eqn:Hp.
    + apply prefix_beginsWith in Hp as [rest Hrest].
      exfalso. apply (Habs EmptyString rest). exact Hrest.
    + f_equal. apply IH. intros front back Heq.
      apply (Habs (String a front) back). simpl. congruence.
Qed.

Example replace_first_occurrence :
  replace "/proj/public/a.js" "public/" EmptyString = "/proj/a.js"
  /\ replace "public/public/a.js" "public/" EmptyString = "public/a.js"
  /\ replace "src/a.js" "public/" EmptyString = "src/a.js".
Proof. repeat split. Qed.

Example endsWith_cases :
  endsWith "src/index.html" "index.html" = true
  /\ endsWith "a.css" ".css" = true
  /\ endsWith "css" ".css" = false
  /\ endsWith "a.css.map" ".css" = false.
Proof. repeat split. Qed.

End StringFacts.

(** ** Dictionaries *)

Section ObjectFacts.

Import JsObject.

Lemma insertByIndex_perm p (l : t) : Permutation (insertByIndex p l) (p :: l).
Proof.
  induction l as [|q l IH]; simpl; [reflexivity|].
  destruct (indexOf p <? indexOf q)%N; [reflexivity|].
  rewrite IH. apply perm_swap.
Qed.

Lemma sortByIndex_perm (l : t) : Permutation (sortByIndex l) l.
Proof.
  induction l as [|p l IH]; simpl; [reflexivity|].
  rewrite insertByIndex_perm, IH. reflexivity.
Qed.

Lemma filter_split_perm {A} (f : A -> bool) (l : list A) :
  Permutation (List.filter f l ++ List.filter (fun a => negb (f a)) l) l.
Proof.
  induction l as [|a l IH]; simpl; [reflexivity|].
  destruct (f a); simpl.
  - apply perm_skip, IH.
  - rewrite <- Permutation_middle. apply perm_skip, IH.
Qed.

Lemma ownEntries_perm (o : t) : Permutation (ownEntries o) o.
Proof.
  unfold ownEntries. rewrite sortByIndex_perm. apply filter_split_perm.
Qed.

Lemma ownEntries_In (o : t) p : In p (ownEntries o) <-> In p o.
Proof.
  split; apply Permutation_in; [|symmetry]; apply ownEntries_perm.
Qed.

Lemma keys_ownEntries (o : t) k :
  In k (List.map fst (ownEntries o)) <-> In k (List.map fst o).
Proof.
  split; apply Permutation_in, Permutation_map; [|symmetry]; apply ownEntries_perm.
Qed.

Lemma ownEntries_wf (o : t) : wf o -> wf (ownEntries o).
Proof.
  unfold wf. intros H. eapply Permutation_NoDup; [|exact H].
  symmetry. apply Permutation_map, ownEntries_perm.
Qed.

Lemma filter_keys_NoDup (f : string * string -> bool) (l : t) :
  List.NoDup (List.map fst l) -> List.NoDup (List.map fst (List.filter f l)).
Proof.
  induction l as [|p l IH]; simpl; intros H; [constructor|].
  inversion H as [|? ? Hnotin Hnd]; subst.
  destruct (f p); simpl; [|auto].
  constructor; [|auto].
  intros Hin. apply Hnotin. apply in_map_iff in Hin as (q & Hq & Hin).
  apply filter_In in Hin as [Hin _]. apply in_map_iff. eauto.
Qed.

Lemma set_fresh (o : t) k v :
  ~ In k (List.map fst o) -> set o k v = o ++ [(k, v)].
Proof.
  induction o as [|[k' v'] o IH]; simpl; intros Hk; [reflexivity|].
  destruct (String.eqb k' k) eqn:He.
  - apply String.eqb_eq in He. tauto.
  - rewrite IH by tauto. reflexivity.
Qed.

Lemma has_false (o : t) k :
  has o k = false <-> ~ In k (List.map fst o).
Proof.
  unfold has. induction o as [|[k' v'] o IH]; simpl; [tauto|].
  rewrite orb_false_iff, IH, String.eqb_neq. tauto.
Qed.

Lemma put_proto (o : t) v :
  ~ In "__proto__" (List.map fst o) -> put o "__proto__" v = o.
Proof.
  intros H. unfold put. apply has_false in H. rewrite H. reflexivity.
Qed.

Lemma put_fresh (o : t) k v :
  k <> "__proto__" -> ~ In k (List.map fst o) -> put o k v = o ++ [(k, v)].
Proof.
  intros Hk H. unfold put. apply String.eqb_neq in Hk. rewrite Hk.
  apply set_fresh, H.
Qed.

(** The loop of the filter, on distinct keys: the kept pairs are the pairs
    that pass the test, the one under [__proto__] apart. *)
Lemma fold_filterStep (p : string -> string -> bool) (l acc : t) (changed : bool) :
  List.NoDup (List.map fst l) ->
  (forall k, In k (List.map fst acc) -> ~ In k (List.map fst l)) ->
  ~ In "__proto__" (List.map fst acc) ->
  fold_left (filterStep p) l (acc, changed) =
  (acc ++ List.filter (fun kv => p (fst kv) (snd kv) && assignable kv) l,
   changed || negb (forallb (fun kv => p (fst kv) (snd kv)) l)).
Proof.
  revert acc changed; induction l as [|[k v] l IH]; intros acc changed Hnd Hdis Hproto.
  - simpl. rewrite app_nil_r, orb_false_r. reflexivity.
  - simpl in Hnd. inversion Hnd as [|? ? Hk Hnd']; subst.
    cbn [fold_left List.filter forallb fst snd]. unfold filterStep at 2.
    cbn [fst snd]. destruct (p k v) eqn:Hp; cbn [andb].
    + unfold assignable; cbn [fst]. destruct (String.eqb k "__proto__") eqn:He.
      * apply String.eqb_eq in He; subst k. rewrite (put_proto acc v Hproto).
        cbn [negb]. apply IH; [exact Hnd'| |exact Hproto].
        intros k' Hin Hin'. apply (Hdis k' Hin). right. exact Hin'.
      * apply String.eqb_neq in He.
        rewrite put_fresh; [|exact He|].
        2:{ intros Hin. apply (Hdis k Hin). left. reflexivity. }
        cbn [negb]. rewrite IH; [|exact Hnd'| |].
        -- rewrite <- app_assoc. reflexivity.
        -- intros k' Hin Hin'. rewrite map_app in Hin. apply in_app_or in Hin as [Hin|Hin].
           ++ apply (Hdis k' Hin). right. exact Hin'.
           ++ simpl in Hin. destruct Hin as [<-|[]]. apply Hk, Hin'.
        -- rewrite map_app. intros Hin. apply in_app_or in Hin as [Hin|Hin]; [tauto|].
           simpl in Hin. destruct Hin as [Hin|[]]. congruence.
    + rewrite IH; [|exact Hnd'| |exact Hproto].
      * rewrite !orb_true_r. reflexivity.
      * intros k' Hin Hin'. apply (Hdis k' Hin). right. exact Hin'.
Qed.

Lemma filterWithIndex_eq (p : string -> string -> bool) (fa : t) :
  wf fa ->
  filterWithIndex p fa =
  if forallb (fun kv => p (fst kv) (snd kv)) (ownEntries fa) then fa
  else List.filter (fun kv => p (fst kv) (snd kv) && assignable kv) (ownEntries fa).
Proof.
  intros H. unfold filterWithIndex.
  rewrite fold_filterStep; [|apply ownEntries_wf, H|intros k []|intros []].
  cbn [app orb]. destruct (forallb _ (ownEntries fa)); reflexivity.
Qed.

(** A pair is kept when it passes the test; the pair under [__proto__] only
    when every pair passes. *)
Lemma filterWithIndex_In (p : string -> string -> bool) (fa : t) k v :
  wf fa ->
  (In (k, v) (filterWithIndex p fa) <->
   In (k, v) fa /\ p k v = true /\
   (k = "__proto__" -> forallb (fun kv => p (fst kv) (snd kv)) (ownEntries fa) = true)).
Proof.
  intros H. rewrite (filterWithIndex_eq p fa H).
  destruct (forallb _ (ownEntries fa)) eqn:Hall.
  - rewrite forallb_forall in Hall. split; [|tauto].
    intros Hin. split; [exact Hin|]. split; [|reflexivity].
    apply (Hall (k, v)), ownEntries_In, Hin.
  - rewrite filter_In, ownEntries_In, andb_true_iff. unfold assignable. cbn [fst snd].
    rewrite negb_true_iff, String.eqb_neq. split.
    + intros (Hin & Hp & Hk). split; [exact Hin|]. split; [exact Hp|]. intros ->. congruence.
    + intros (Hin & Hp & Hk). split; [exact Hin|]. split; [exact Hp|].
      intros ->. specialize (Hk eq_refl). discriminate.
Qed.

Lemma filterWithIndex_sound (p : string -> string -> bool) (fa : t) k v :
  wf fa -> In (k, v) (filterWithIndex p fa) -> In (k, v) fa /\ p k v = true.
Proof. intros H Hin. apply (filterWithIndex_In p fa k v H) in Hin. tauto. Qed.

Lemma filterWithIndex_kept (p : string -> string -> bool) (fa : t) k v :
  wf fa -> k <> "__proto__" -> In (k, v) fa -> p k v = true ->
  In (k, v) (filterWithIndex p fa).
Proof.
  intros H Hk Hin Hp. apply (filterWithIndex_In p fa k v H). tauto.
Qed.

Lemma filterWithIndex_wf (p : string -> string -> bool) (fa : t) :
  wf fa -> wf (filterWithIndex p fa).
Proof.
  intros H. rewrite (filterWithIndex_eq p fa H).
  destruct (forallb _ (ownEntries fa)); [exact H|].
  apply filter_keys_NoDup, ownEntries_wf, H.
Qed.

Lemma fold_set_fresh (l o : t) :
  List.NoDup (List.map fst l) ->
  (forall k, In k (List.map fst l) -> ~ In k (List.map fst o)) ->
  fold_left (fun acc p => set acc (fst p) (snd p)) l o = o ++ l.
Proof.
  revert o. induction l as [|[k v] l IH]; simpl; intros o Hnd Hdisj.
  - rewrite app_nil_r. reflexivity.
  - inversion Hnd as [|? ? Hk Hnd']; subst.
    rewrite set_fresh by (apply Hdisj; auto).
    rewrite IH; [rewrite <- app_assoc; reflexivity | exact Hnd' |].
    intros k' Hk'. rewrite map_app, in_app_iff. simpl.
    intros [Hin | [-> | []]]; [|tauto].
    apply (Hdisj k'); auto.
Qed.

(** Spreading two dictionaries that share no key lists the properties of
    the first, then those of the second. *)
Lemma spread2_disjoint (a b : t) :
  wf a -> wf b ->
  (forall k, In k (List.map fst b) -> ~ In k (List.map fst a)) ->
  spread2 a b = ownEntries a ++ ownEntries b.
Proof.
  intros Ha Hb Hdisj. unfold spread2, assign.
  rewrite (fold_set_fresh (ownEntries a) []); [|apply ownEntries_wf, Ha | auto].
  simpl. apply fold_set_fresh; [apply ownEntries_wf, Hb|].
  intros k Hk Hka. apply (Hdisj k).
  - apply in_map_iff in Hk as (p & <- & Hp). apply in_map_iff.
    exists p. split; [reflexivity|]. apply ownEntries_In, Hp.
  - apply in_map_iff in Hka as (p & <- & Hp). apply in_map_iff.
    exists p. split; [reflexivity|]. apply ownEntries_In, Hp.
Qed.

(** In a dictionary a key has one value. *)
Lemma wf_functional (o : t) k v1 v2 :
  wf o -> In (k, v1) o -> In (k, v2) o -> v1 = v2.
Proof.
  unfold wf. induction o as [|[k' v'] o IH]; simpl; intros Hnd H1 H2; [tauto|].
  inversion Hnd as [|? ? Hk Hnd']; subst.
  destruct H1 as [H1 | H1], H2 as [H2 | H2].
  - congruence.
  - inversion H1; subst. exfalso. apply Hk, in_map_iff. exists (k, v2). auto.
  - inversion H2; subst. exfalso. apply Hk, in_map_iff. exists (k, v1). auto.
  - auto.
Qed.

Example arrayIndex_cases :
  List.map arrayIndex
    ["0"; "7"; "42"; "007"; "main"; "4294967294"; "4294967295"; "1a"]
  = [Some 0%N; Some 7%N; Some 42%N; None; None; Some 4294967294%N; None; None].
Proof. reflexivity. Qed.

(** Integer-like keys come first, by value; the others keep their order. *)
Example ownEntries_order :
  ownEntries [("main", "a"); ("10", "b"); ("x", "c"); ("2", "d")]
  = [("2", "d"); ("10", "b"); ("main", "a"); ("x", "c")].
Proof. reflexivity. Qed.

Example spread2_overrides :
  spread2 [("a", "1"); ("b", "2")] [("b", "3"); ("c", "4")]
  = [("a", "1"); ("b", "3"); ("c", "4")].
Proof. reflexivity. Qed.

End ObjectFacts.

(** ** The branches of the middlewares *)

Section Branches.

Variable plat : Platform.
Variable server : ViteDevServer.

Lemma urlMismatch_matches (req : IncomingMessage) (route : string) :
  urlMismatch req route = false <-> matches req route.
Proof.
  unfold urlMismatch, matches. destruct (originalUrl req) as [u|]; simpl.
  - rewrite negb_false_iff, startsWith_beginsWith. split.
    + intros H. exists u. auto.
    + intros (u' & Hu & H). congruence.
  - split; [discriminate | intros (u & Hu & _); discriminate].
Qed.

Lemma urlMismatch_not_matches (req : IncomingMessage) (route : string) :
  urlMismatch req route = true <-> ~ matches req route.
Proof.
  rewrite <- urlMismatch_matches. destruct (urlMismatch req route); split; congruence.
Qed.

Lemma exposed_mismatch folder file req c :
  ~ matches req ("/" +:+ file) ->
  handle plat server (ExposedFile folder file) req c = (tt, c, [Next]).
Proof.
  intros H. apply urlMismatch_not_matches in H.
  unfold handle, complete, call, exposedFileMiddleware. rewrite H. reflexivity.
Qed.

Lemma exposed_match folder file req c :
  matches req ("/" +:+ file) ->
  handle plat server (ExposedFile folder file) req c =
  (tt, c,
   [ConsoleDebug [LStr ("Request for the extra folder " +:+ DQ +:+ folder +:+ DQ
                        +:+ ", serving file: " +:+ file)];
    TransformRequest (folder +:+ "/" +:+ file);
    SetHeader contentType javascript;
    End_ (nullish (option_map code (transformRequest server (folder +:+ "/" +:+ file)))
            EmptyString)]).
Proof.
  intros H. apply urlMismatch_matches in H.
  unfold handle, complete, call, exposedFileMiddleware. rewrite H. reflexivity.
Qed.

Lemma entry_mismatch name input req c :
  ~ matches req ("/" +:+ name) ->
  handle plat server (Entry name input) req c = (tt, c, [Next]).
Proof.
  intros H. apply urlMismatch_not_matches in H.
  unfold handle, complete, call, entryMiddleware. rewrite H. reflexivity.
Qed.

(** The entry middleware of a matching request, by what the cache holds. *)
Lemma entry_match name input req (c : gmap string string) :
  matches req ("/" +:+ name) ->
  handle plat server (Entry name input) req c =
  match c !! name with
  | Some contents =>
      (tt, c,
       [ConsoleDebug [LStr ("Serving cached entry for " +:+ name)];
        SetHeader contentType
          (if startsWith contents cssBundleMarker then css else javascript);
        End_ contents])
  | None =>
      let '(_, c', trace) := entryAfterAwait plat server name input c in
      (tt, c', GetModuleByUrl input :: trace)
  end.
Proof.
  intros H. apply urlMismatch_matches in H.
  unfold handle, complete, call, entryMiddleware. rewrite H.
  unfold bind, cacheHas, cacheGet, emit, finished, await, ret. cbv beta iota zeta.
  destruct (c !! name) as [contents|] eqn:Hc.
  - rewrite bool_decide_eq_true_2 by eauto. cbv beta iota zeta. rewrite Hc.
    reflexivity.
  - rewrite bool_decide_eq_false_2 by (intros [? ?]; discriminate).
    cbv beta iota zeta.
    destruct (entryAfterAwait plat server name input c) as [[[] c'] trace].
    reflexivity.
Qed.

Lemma serveInput_run name input (c : gmap string string) :
  serveInput name input (getModuleByUrl server input ≫= transformResult) c =
  (tt, (if negb (String.eqb (codeOf server input) EmptyString)
        then <[name := codeOf server input]> c else c),
   [ConsoleDebug [LStr ("Request for " +:+ name +:+ ", serving input file "
                        +:+ DQ +:+ input +:+ DQ)];
    SetHeader contentType javascript;
    End_ (codeOf server input)]).
Proof.
  unfold serveInput, codeOf, bind, emit, truthy.
  destruct (getModuleByUrl server input ≫= transformResult) as [[x]|]; simpl.
  - destruct (String.eqb x EmptyString); reflexivity.
  - reflexivity.
Qed.

(** The second half of the entry middleware, by the branch it takes. *)
Lemma entryAfterAwait_run name input (c : gmap string string) :
  entryAfterAwait plat server name input c =
  if takesCssBranch plat server input then
    (tt, <[name := cssBundleOf (importedFilesOf plat (getModuleByUrl server input))]> c,
     [ConsoleDebug [LStr ("Request for " +:+ name +:+ ", serving CSS only file")];
      SetHeader contentType css;
      End_ (cssBundleMarker +:+ LF +:+ LF
            +:+ cssBundleOf (importedFilesOf plat (getModuleByUrl server input)))])
  else
    (tt, (if negb (String.eqb (codeOf server input) EmptyString)
          then <[name := codeOf server input]> c else c),
     [ConsoleDebug [LStr ("Request for " +:+ name +:+ ", serving input file "
                          +:+ DQ +:+ input +:+ DQ)];
      SetHeader contentType javascript;
      End_ (codeOf server input)]).
Proof.
  unfold entryAfterAwait, takesCssBranch. cbv zeta.
  destruct (startsWith input "virtual:"); simpl.
  - destruct (isCssOnly (importedFilesOf plat (getModuleByUrl server input))).
    + reflexivity.
    + apply serveInput_run.
  - apply serveInput_run.
Qed.

Lemma entry_hit name input req (c : gmap string string) contents :
  matches req ("/" +:+ name) ->
  c !! name = Some contents ->
  handle plat server (Entry name input) req c =
  (tt, c,
   [ConsoleDebug [LStr ("Serving cached entry for " +:+ name)];
    SetHeader contentType
      (if startsWith contents cssBundleMarker then css else javascript);
    End_ contents]).
Proof.
  intros H Hc. rewrite (entry_match name input req c H), Hc. reflexivity.
Qed.

Lemma entry_miss_css name input req (c : gmap string string) :
  matches req ("/" +:+ name) ->
  c !! name = None ->
  takesCssBranch plat server input = true ->
  handle plat server (Entry name input) req c =
  (tt, <[name := cssBundleOf (importedFilesOf plat (getModuleByUrl server input))]> c,
   [GetModuleByUrl input;
    ConsoleDebug [LStr ("Request for " +:+ name +:+ ", serving CSS only file")];
    SetHeader contentType css;
    End_ (cssBundleMarker +:+ LF +:+ LF
          +:+ cssBundleOf (importedFilesOf plat (getModuleByUrl server input)))]).
Proof.
  intros H Hc Hcss.
  rewrite (entry_match name input req c H), Hc, entryAfterAwait_run, Hcss.
  reflexivity.
Qed.

Lemma entry_miss_js name input req (c : gmap string string) :
  matches req ("/" +:+ name) ->
  c !! name = None ->
  takesCssBranch plat server input = false ->
  handle plat server (Entry name input) req c =
  (tt, (if negb (String.eqb (codeOf server input) EmptyString)
        then <[name := codeOf server input]> c else c),
   [GetModuleByUrl input;
    ConsoleDebug [LStr ("Request for " +:+ name +:+ ", serving input file "
                        +:+ DQ +:+ input +:+ DQ)];
    SetHeader contentType javascript;
    End_ (codeOf server input)]).
Proof.
  intros H Hc Hcss.
  rewrite (entry_match name input req c H), Hc, entryAfterAwait_run, Hcss.
  reflexivity.
Qed.

End Branches.

Lemma awaits_dec (h : Middleware) (c : gmap string string) :
  {awaits h c} + {~ awaits h c}.
Proof.
  destruct h as [folder file | name locator]; simpl.
  - left. exact I.
  - destruct (c !! name); [right; discriminate | left; reflexivity].
Defined.

(** ** The CSS-only decision and the bundle *)

Lemma isCssOnly_spec (files : list string) :
  isCssOnly files = true <->
  files <> [] /\ Forall (fun file => endsIn file ".css") files.
Proof.
  unfold isCssOnly. rewrite andb_true_iff, Nat.ltb_lt, forallb_forall, List.Forall_forall.
  split; intros [Hlen Hall]; split.
  - intros ->. simpl in Hlen. lia.
  - intros f Hf. apply endsWith_endsIn. auto.
  - destruct files; [congruence | simpl; lia].
  - intros f Hf. apply endsWith_endsIn. auto.
Qed.

Lemma takesCssBranch_cssOnly plat server input :
  takesCssBranch plat server input = true <-> cssOnly plat server input.
Proof.
  unfold takesCssBranch, cssOnly.
  rewrite andb_true_iff, startsWith_beginsWith, isCssOnly_spec. tauto.
Qed.

Lemma takesCssBranch_not_cssOnly plat server input :
  takesCssBranch plat server input = false <-> ~ cssOnly plat server input.
Proof.
  rewrite <- takesCssBranch_cssOnly.
  destruct (takesCssBranch plat server input); split; congruence.
Qed.

(** A bundle begins with [@import], never with the marker. *)
Lemma cssBundle_not_marked (files : list string) :
  files <> [] -> startsWith (cssBundleOf files) cssBundleMarker = false.
Proof.
  destruct files as [|f [|g fs]]; [congruence | reflexivity | reflexivity].
Qed.

Lemma cssBundle_not_empty (files : list string) :
  files <> [] -> cssBundleOf files <> EmptyString.
Proof.
  destruct files as [|f [|g fs]]; [congruence | discriminate | discriminate].
Qed.

(** The first answer for a CSS-only virtual entry: the marker, a blank line,
    one [@import] line per collected file; the bundle alone goes to the
    cache. *)
Lemma css_branch_run plat server name input req (c : gmap string string) :
  cssOnly plat server input ->
  matches req ("/" +:+ name) ->
  c !! name = None ->
  let files := importedFilesOf plat (getModuleByUrl server input) in
  responseOf (traceOf (handle plat server (Entry name input) req c)) =
    [SetHeader contentType css;
     End_ (cssBundleMarker +:+ LF +:+ LF +:+ cssBundleOf files)]
  /\ cacheOf (handle plat server (Entry name input) req c) =
     <[name := cssBundleOf files]> c.
Proof.
  intros Hcss Hm Hc files. apply takesCssBranch_cssOnly in Hcss.
  rewrite (entry_miss_css plat server name input req c Hm Hc Hcss).
  split; reflexivity.
Qed.

(** The first answer for any other entry. *)
Lemma js_branch_run plat server name input req (c : gmap string string) :
  ~ cssOnly plat server input ->
  matches req ("/" +:+ name) ->
  c !! name = None ->
  responseOf (traceOf (handle plat server (Entry name input) req c)) =
    [SetHeader contentType javascript; End_ (codeOf server input)]
  /\ lookupsOf (traceOf (handle plat server (Entry name input) req c)) = [input]
  /\ cacheOf (handle plat server (Entry name input) req c) =
     (if negb (String.eqb (codeOf server input) EmptyString)
      then <[name := codeOf server input]> c else c).
Proof.
  intros Hcss Hm Hc. apply takesCssBranch_not_cssOnly in Hcss.
  rewrite (entry_miss_js plat server name input req c Hm Hc Hcss).
  repeat split; reflexivity.
Qed.

(** An answer from the cache. *)
Lemma cached_run plat server name input req (c : gmap string string) contents :
  matches req ("/" +:+ name) ->
  c !! name = Some contents ->
  responseOf (traceOf (handle plat server (Entry name input) req c)) =
    [SetHeader contentType
       (if startsWith contents cssBundleMarker then css else javascript);
     End_ contents]
  /\ lookupsOf (traceOf (handle plat server (Entry name input) req c)) = []
  /\ cacheOf (handle plat server (Entry name input) req c) = c.
Proof.
  intros Hm Hc. rewrite (entry_hit plat server name input req c contents Hm Hc).
  repeat split; reflexivity.
Qed.

(** Imports that live under [import.meta.dirname] are collected by their
    path from there; imports without a file are skipped. *)
Lemma importedFilesOf_rooted plat (transformed : option TransformResult)
    (self : option string) (paths : list string) :
  importedFilesOf plat
    (Some (mkModuleNode self transformed
             (List.map (fun path => mkModuleNode (Some (dirname plat +:+ path)) None [])
                paths)))
  = paths.
Proof.
  unfold importedFilesOf. simpl.
  induction paths as [|path paths IH]; simpl; [reflexivity|].
  rewrite replace_front. simpl. f_equal. exact IH.
Qed.

Lemma not_virtual_not_cssOnly plat server input :
  startsWith input "virtual:" = false -> ~ cssOnly plat server input.
Proof.
  intros H [Hv _]. apply startsWith_beginsWith in Hv. congruence.
Qed.

(** ** Sequences of requests *)

Lemma serve_cons plat server h req reqs (c : gmap string string) :
  traceOf (serve plat server ((h, req) :: reqs) c) =
    traceOf (handle plat server h req c) ++
    traceOf (serve plat server reqs (cacheOf (handle plat server h req c)))
  /\ cacheOf (serve plat server ((h, req) :: reqs) c) =
     cacheOf (serve plat server reqs (cacheOf (handle plat server h req c))).
Proof.
  simpl. unfold bind, traceOf, cacheOf.
  destruct (handle plat server h req c) as [[[] c1] t1]. simpl.
  destruct (serve plat server reqs c1) as [[[] c2] t2]. simpl. auto.
Qed.

Lemma lookupsOf_app (t1 t2 : list Event) :
  lookupsOf (t1 ++ t2) = lookupsOf t1 ++ lookupsOf t2.
Proof. apply omap_app. Qed.




(** ** Requests that interleave *)

Lemma exposedFileAfterAwait_cache server folder file (c : gmap string string) :
  cacheOf (exposedFileAfterAwait server folder file c) = c.
Proof. reflexivity. Qed.

Lemma entryAfterAwait_keeps plat server name input :
  keepsNames (entryAfterAwait plat server name input).
Proof.
  intros c k Hk. rewrite entryAfterAwait_run.
  destruct (takesCssBranch plat server input); unfold cacheOf; simpl.
  - apply lookup_insert_is_Some'. auto.
  - destruct (negb (String.eqb (codeOf server input) EmptyString)); [|exact Hk].
    apply lookup_insert_is_Some'. auto.
Qed.

(** The first part of a middleware does not write the cache, and what it
    leaves to run never unbinds a name. *)
Lemma call_first_part plat server h req (c : gmap string string) :
  cacheOf (call plat server h req c) = c
  /\ forall k, fst (fst (call plat server h req c)) = Some k -> keepsNames k.
Proof.
  destruct h as [folder file | name input]; simpl.
  - unfold exposedFileMiddleware.
    destruct (urlMismatch req ("/" +:+ file)); simpl.
    + split; [reflexivity | discriminate].
    + split; [reflexivity|]. intros k Hk. inversion Hk; subst.
      intros c' n Hn. exact Hn.
  - unfold entryMiddleware.
    destruct (urlMismatch req ("/" +:+ name)); simpl.
    + split; [reflexivity | discriminate].
    + unfold bind, cacheHas, cacheGet, emit, finished, await, ret, cacheOf.
      cbv beta iota zeta.
      destruct (bool_decide (is_Some (c !! name))); simpl.
      * split; [reflexivity | discriminate].
      * split; [reflexivity|]. intros k Hk. inversion Hk; subst.
        apply entryAfterAwait_keeps.
Qed.



(** Running a request to completion is its arrival followed at once by its
    resumption. *)
Lemma handle_as_tasks plat server h req (c : gmap string string) :
  let '(n, trace) :=
    runTasks plat server [Arrive h req; Resume 0] {| entryCache := c; inFlight := [] |} in
  entryCache n = cacheOf (handle plat server h req c)
  /\ trace = traceOf (handle plat server h req c)
  /\ inFlight n = [].
Proof.
  unfold handle, complete, bind, runTasks, runTask, cacheOf, traceOf. simpl.
  destruct (call plat server h req c) as [[[k|] c1] trace1]; simpl.
  - destruct (k c1) as [[[] c2] trace2]. simpl. rewrite app_nil_r. auto.
  - rewrite !app_nil_r. auto.
Qed.

(** ** The run of [configureServer] *)

Lemma forEach_emitters {A} (l : list A) (f : A -> M unit) (g : A -> list Event) :
  (forall a c, f a c = (tt, c, g a)) ->
  forall c, forEach l f c = (tt, c, List.flat_map g l).
Proof.
  intros Hf. induction l as [|a l IH]; intros c; simpl.
  - reflexivity.
  - unfold bind. rewrite Hf, IH. reflexivity.
Qed.

Lemma flat_map_singleton {A B} (f : A -> B) (l : list A) :
  List.flat_map (fun a => [f a]) l = List.map f l.
Proof. induction l; simpl; congruence. Qed.

Lemma omap_flat_map {A B C} (f : B -> option C) (g : A -> list B) (l : list A) :
  omap f (List.flat_map g l) = List.flat_map (fun a => omap f (g a)) l.
Proof.
  induction l as [|a l IH]; simpl; [reflexivity|].
  rewrite omap_app, IH. reflexivity.
Qed.

Lemma exposeFolder_run plat folder (c : gmap string string) :
  exposeFolder plat folder c = (tt, c, exposeTrace plat folder).
Proof.
  unfold exposeFolder, exposeTrace, bind, emit.
  rewrite (forEach_emitters _ _
             (fun file => [Use ("/" +:+ file) (ExposedFile folder file)]))
    by reflexivity.
  rewrite flat_map_singleton. reflexivity.
Qed.

Lemma registerEntry_run entry (c : gmap string string) :
  registerEntry entry c = (tt, c, registerTrace entry).
Proof. destruct entry as [name input]. reflexivity. Qed.

Lemma configureServer_run plat options server (c : gmap string string) :
  configureServer plat options server c =
  (tt, ∅,
   [ConsoleDebug [LStr "Inputs"; LObj (input server)];
    ConsoleDebug [LStr "Non-virtual inputs"; LObj (nonVirtualInputs (input server))];
    ConsoleDebug [LStr "Virtual inputs"; LObj (virtualInputs (input server))]]
   ++ foldersTrace plat options
   ++ List.flat_map registerTrace (routedEntries (input server))).
Proof.
  unfold configureServer, foldersTrace, bind, emit, cacheNew, ret.
  rewrite (forEach_emitters _ _ registerTrace) by apply registerEntry_run.
  destruct (options ≫= exposedFolders) as [folders|]; simpl.
  - rewrite (forEach_emitters _ _ (exposeTrace plat)) by apply exposeFolder_run.
    reflexivity.
  - reflexivity.
Qed.

Lemma routesOf_exposeTrace plat folder :
  routesOf (exposeTrace plat folder) = exposedRoutes plat [folder].
Proof.
  unfold exposeTrace, exposedRoutes, exposedFiles, routesOf. simpl.
  rewrite app_nil_r, List.map_map.
  induction (globSync plat (folder +:+ "/**/*")) as [|p l IH]; simpl; congruence.
Qed.

Lemma exposedRoutes_flat plat folders :
  List.flat_map (fun folder => routesOf (exposeTrace plat folder)) folders
  = exposedRoutes plat folders.
Proof.
  induction folders as [|f fs IH]; [reflexivity|].
  cbn [List.flat_map]. rewrite IH, routesOf_exposeTrace. unfold exposedRoutes.
  cbn [List.flat_map]. rewrite app_nil_r. reflexivity.
Qed.

Lemma routesOf_configureServer plat options server (c : gmap string string) :
  routesOf (traceOf (configureServer plat options server c)) =
  exposedRoutes plat (nullish (options ≫= exposedFolders) [])
  ++ entryRoutes (input server).
Proof.
  rewrite configureServer_run. unfold traceOf, routesOf, foldersTrace. simpl.
  rewrite omap_app, !omap_flat_map.
  assert (Hentries :
    List.flat_map (fun a => routesOf (registerTrace a)) (routedEntries (input server))
    = entryRoutes (input server)).
  { unfold entryRoutes. rewrite <- flat_map_singleton. reflexivity. }
  unfold routesOf in Hentries. rewrite Hentries. f_equal.
  destruct (options ≫= exposedFolders) as [folders|]; simpl.
  - rewrite omap_flat_map. apply exposedRoutes_flat.
  - reflexivity.
Qed.

Lemma flat_map_nil {A B} (g : A -> list B) (l : list A) :
  (forall a, g a = []) -> List.flat_map g l = [].
Proof. intros Hg. induction l as [|a l IH]; simpl; [|rewrite Hg, IH]; reflexivity. Qed.

Lemma warmupsOf_exposeTrace plat folder : warmupsOf (exposeTrace plat folder) = [].
Proof.
  unfold exposeTrace, warmupsOf. simpl.
  induction (exposedFiles plat folder); simpl; auto.
Qed.

Lemma warmupsOf_foldersTrace plat options : warmupsOf (foldersTrace plat options) = [].
Proof.
  unfold foldersTrace. destruct (options ≫= exposedFolders) as [folders|]; [|reflexivity].
  unfold warmupsOf. simpl. rewrite omap_flat_map.
  apply flat_map_nil, warmupsOf_exposeTrace.
Qed.

Lemma warmupsOf_configureServer plat options server (c : gmap string string) :
  warmupsOf (traceOf (configureServer plat options server c)) =
  List.map snd (routedEntries (input server)).
Proof.
  rewrite configureServer_run. unfold traceOf. cbn [snd].
  unfold warmupsOf. rewrite !omap_app. fold (warmupsOf (foldersTrace plat options)).
  rewrite warmupsOf_foldersTrace, omap_flat_map. simpl.
  rewrite <- flat_map_singleton. reflexivity.
Qed.

Lemma registered_route plat options server (c : gmap string string) route h :
  In (route, h) (routesOf (traceOf (configureServer plat options server c))) ->
  route = routeOf h.
Proof.
  rewrite routesOf_configureServer, in_app_iff.
  unfold exposedRoutes, entryRoutes. rewrite in_flat_map, in_map_iff.
  intros [(folder & _ & Hin) | (entry & Heq & _)].
  - apply in_map_iff in Hin as (path & Heq & _).
    inversion Heq; subst. reflexivity.
  - inversion Heq; subst. reflexivity.
Qed.

(** ** The entries that are routed *)

Lemma filterWithIndex_all (p : string -> string -> bool) (fa : JsObject.t) :
  JsObject.wf fa ->
  forallb (fun kv => p (fst kv) (snd kv)) (JsObject.ownEntries fa) = true ->
  JsObject.filterWithIndex p fa = fa.
Proof. intros H Hall. rewrite (filterWithIndex_eq p fa H), Hall. reflexivity. Qed.

Lemma virtualInputs_In (inputs : JsObject.t) name locator :
  JsObject.wf inputs ->
  (In (name, locator) (virtualInputs inputs) <->
   In (name, locator) inputs /\ startsWith locator "virtual:" = true /\
   (name = "__proto__" -> allVirtual inputs = true)).
Proof.
  intros Hwf. unfold virtualInputs, JsObject.filter.
  rewrite filterWithIndex_In by exact Hwf. reflexivity.
Qed.

Lemma nonVirtualInputs_In (inputs : JsObject.t) name locator :
  JsObject.wf inputs ->
  (In (name, locator) (nonVirtualInputs inputs) <->
   In (name, locator) inputs /\ startsWith locator "virtual:" = false
   /\ endsWith locator "index.html" = false
   /\ (name = "__proto__" -> noneVirtual inputs = true /\ noPage inputs = true)).
Proof.
  intros Hwf. unfold nonVirtualInputs, JsObject.filter.
  rewrite filterWithIndex_In by (apply filterWithIndex_wf, Hwf).
  rewrite filterWithIndex_In by exact Hwf.
  rewrite !negb_true_iff. fold (noneVirtual inputs). split.
  - intros ((Hin & Hs & Hall) & He & Hall'). repeat split; try assumption.
    + apply Hall, H.
    + specialize (Hall H). specialize (Hall' H).
      rewrite filterWithIndex_all in Hall' by assumption. exact Hall'.
  - intros (Hin & Hs & He & Hall). repeat split; try assumption.
    + intros H. apply Hall, H.
    + intros H. destruct (Hall H) as [Hnv Hnp].
      rewrite filterWithIndex_all by assumption. exact Hnp.
Qed.

Lemma inputs_disjoint (inputs : JsObject.t) :
  JsObject.wf inputs ->
  forall k, In k (List.map fst (nonVirtualInputs inputs)) ->
            ~ In k (List.map fst (virtualInputs inputs)).
Proof.
  intros Hwf k Hn Hv.
  apply in_map_iff in Hn as ([k1 v1] & <- & Hn).
  apply in_map_iff in Hv as ([k2 v2] & Hk & Hv). simpl in Hk. subst k2.
  apply (nonVirtualInputs_In inputs k1 v1 Hwf) in Hn as (Hn & Hs1 & _).
  apply (virtualInputs_In inputs k1 v2 Hwf) in Hv as (Hv & Hs2 & _).
  rewrite (wf_functional inputs k1 v1 v2 Hwf Hn Hv) in Hs1. congruence.
Qed.

Lemma routedEntries_eq (inputs : JsObject.t) :
  JsObject.wf inputs ->
  routedEntries inputs =
  JsObject.ownEntries (JsObject.ownEntries (virtualInputs inputs)
                       ++ JsObject.ownEntries (nonVirtualInputs inputs)).
Proof.
  intros Hwf. unfold routedEntries. rewrite spread2_disjoint; [reflexivity| | |].
  - apply filterWithIndex_wf, Hwf.
  - apply filterWithIndex_wf, filterWithIndex_wf, Hwf.
  - apply inputs_disjoint, Hwf.
Qed.

(** An entry is routed when its locator passes the tests; the entry under
    the key [__proto__] only when, besides, one of the two filters drops
    nothing. *)
Lemma routedEntries_In (inputs : JsObject.t) name locator :
  JsObject.wf inputs ->
  (In (name, locator) (routedEntries inputs) <->
   In (name, locator) inputs /\
   (startsWith locator "virtual:" = true \/ endsWith locator "index.html" = false) /\
   (name = "__proto__" ->
      allVirtual inputs = true \/ (noneVirtual inputs = true /\ noPage inputs = true))).
Proof.
  intros Hwf. rewrite routedEntries_eq by exact Hwf.
  rewrite ownEntries_In, in_app_iff, !ownEntries_In,
    virtualInputs_In, nonVirtualInputs_In by exact Hwf.
  unfold allVirtual, noneVirtual, noPage.
  destruct (startsWith locator "virtual:") eqn:Hs.
  - split.
    + intros [(Hin & _ & Hall)|(_ & Hf & _)]; [|discriminate]. tauto.
    + intros (Hin & _ & Hall). left. split; [exact Hin|]. split; [reflexivity|].
      intros Hname. destruct (Hall Hname) as [Hv|[Hnv _]]; [exact Hv|].
      rewrite forallb_forall in Hnv.
      specialize (Hnv (name, locator) (proj2 (ownEntries_In _ _) Hin)).
      cbn [snd] in Hnv. rewrite Hs in Hnv. discriminate.
  - split.
    + intros [(_ & Hf & _)|(Hin & _ & He & Hall)]; [discriminate|]. tauto.
    + intros (Hin & [Hf|He] & Hall); [discriminate|]. right.
      split; [exact Hin|]. split; [reflexivity|]. split; [exact He|].
      intros Hname. destruct (Hall Hname) as [Hv|Hnv]; [|exact Hnv].
      rewrite forallb_forall in Hv.
      specialize (Hv (name, locator) (proj2 (ownEntries_In _ _) Hin)).
      cbn [snd] in Hv. rewrite Hs in Hv. discriminate.
Qed.

Lemma routedEntries_sound (inputs : JsObject.t) name locator :
  JsObject.wf inputs -> In (name, locator) (routedEntries inputs) ->
  In (name, locator) inputs /\
  (startsWith locator "virtual:" = true \/ endsWith locator "index.html" = false).
Proof. intros Hwf Hin. apply (routedEntries_In inputs name locator Hwf) in Hin. tauto. Qed.

Lemma routedEntries_wf (inputs : JsObject.t) :
  JsObject.wf inputs -> JsObject.wf (routedEntries inputs).
Proof.
  intros Hwf. rewrite routedEntries_eq by exact Hwf.
  apply ownEntries_wf. unfold JsObject.wf. rewrite map_app.
  apply List.NoDup_app.
  - apply ownEntries_wf, filterWithIndex_wf, Hwf.
  - apply ownEntries_wf, filterWithIndex_wf, filterWithIndex_wf, Hwf.
  - intros k Hv Hn.
    apply (proj1 (keys_ownEntries _ _)) in Hv.
    apply (proj1 (keys_ownEntries _ _)) in Hn.
    exact (inputs_disjoint inputs Hwf k Hn Hv).
Qed.

(** ** The cases of the test suite *)

(** "should set up middleware for exposed folders when provided" *)
Example test_exposed_folder_routes :
  let trace := traceOf (configureServer
      (Mock.platform ["/absolute/path/public/file1.js";
                      "/absolute/path/public/file2.css";
                      "/absolute/path/public/subdir/file3.ts"])
      Mock.exposePublic (Mock.server Mock.config None None) ∅) in
  List.filter (fun e => match e with GlobSync _ => true | _ => false end) trace
  = [GlobSync "public/**/*"]
  /\ firstn 3 (List.map fst (routesOf trace))
     = ["//absolute/path/file1.js"; "//absolute/path/file2.css";
        "//absolute/path/subdir/file3.ts"].
Proof. split; reflexivity. Qed.

(** "should not set up exposed folder middleware when no folders provided",
    "should set up middleware for all input entries" and "should call
    warmupRequest for each entry" *)
Example test_entry_routes :
  let trace := traceOf (configureServer (Mock.platform []) None
                          (Mock.server Mock.config None None) ∅) in
  List.filter (fun e => match e with GlobSync _ => true | _ => false end) trace = []
  /\ List.map fst (routesOf trace) = ["/virtual:main"; "/virtual:css"; "/main"]
  /\ warmupsOf trace = ["virtual:main"; "virtual:css"; "src/main.ts"].
Proof. repeat split. Qed.

(** "should serve files from exposed folders with correct content type" *)
Example test_exposed_file_served :
  traceOf (handle (Mock.platform ["/absolute/path/public/test.js"])
             (Mock.server Mock.config None (Some {| code := Mock.logTest |}))
             (ExposedFile "public" "/absolute/path/test.js")
             (Mock.req "//absolute/path/test.js") ∅)
  = [ConsoleDebug [LStr ("Request for the extra folder " +:+ DQ +:+ "public" +:+ DQ
                         +:+ ", serving file: /absolute/path/test.js")];
     TransformRequest "public//absolute/path/test.js";
     SetHeader "Content-Type" "application/javascript";
     End_ Mock.logTest].
Proof. reflexivity. Qed.

(** "should call next() when URL does not match" and "should call next()
    when URL does not match entry" *)
Example test_next_on_mismatch :
  traceOf (handle (Mock.platform []) (Mock.server Mock.config None None)
             (ExposedFile "public" "/absolute/path/test.js") (Mock.req "/other.js") ∅)
  = [Next]
  /\ traceOf (handle (Mock.platform []) (Mock.server Mock.config None None)
                (Entry "main" "src/main.ts") (Mock.req "/other") ∅)
     = [Next].
Proof. split; reflexivity. Qed.

(** "should serve cached entries" *)
Example test_cached_entry :
  responseOf (traceOf (serve (Mock.platform [])
                         (Mock.server Mock.config (Some Mock.mainModule) None)
                         [(Entry "main" "src/main.ts", Mock.req "/main");
                          (Entry "main" "src/main.ts", Mock.req "/main")] ∅))
  = [SetHeader "Content-Type" "application/javascript"; End_ Mock.logMain;
     SetHeader "Content-Type" "application/javascript"; End_ Mock.logMain].
Proof. reflexivity. Qed.

(** "should serve CSS bundle for CSS-only virtual entries" *)
Example test_css_bundle :
  responseOf (traceOf (handle (Mock.platform [])
                         (Mock.server [("virtual:main", "virtual:main")]
                                      (Some Mock.cssModule) None)
                         (Entry "virtual:main" "virtual:main")
                         (Mock.req "/virtual:main") ∅))
  = [SetHeader "Content-Type" "text/css";
     End_ ("// type: cssBundle" +:+ LF +:+ LF +:+ "@import 'styles/style1.css';"
           +:+ LF +:+ "@import 'styles/style2.css';")].
Proof. reflexivity. Qed.

(** "should serve JavaScript for non-CSS virtual entries" and "should handle
    missing module gracefully" *)
Example test_javascript_and_missing_module :
  responseOf (traceOf (handle (Mock.platform [])
                         (Mock.server [("virtual:main", "virtual:main.ts")]
                                      (Some Mock.mainModule) None)
                         (Entry "virtual:main" "virtual:main.ts")
                         (Mock.req "/virtual:main") ∅))
  = [SetHeader "Content-Type" "application/javascript"; End_ Mock.logMain]
  /\ responseOf (traceOf (handle (Mock.platform []) (Mock.server Mock.config None None)
                            (Entry "main" "src/main.ts") (Mock.req "/main") ∅))
     = [SetHeader "Content-Type" "application/javascript"; End_ EmptyString].
Proof. split; reflexivity. Qed.

(** ** The sample project *)

Lemma sample_matches (route : string) : matches (Sample.get route) route.
Proof.
  exists route. split; [reflexivity|]. exists EmptyString.
  induction route; simpl; congruence.
Defined.

Lemma sample_css_only : cssOnly Sample.plat Sample.server "virtual:css".
Proof.
  split; [exists "css"; reflexivity|]. split; [discriminate|].
  repeat constructor; [exists "a" | exists "b"]; reflexivity.
Defined.

Lemma sample_wf : JsObject.wf (input Sample.server).
Proof.
  unfold JsObject.wf. simpl.
  repeat (constructor; [simpl; intuition discriminate|]). constructor.
Defined.

Lemma scripts_wf : JsObject.wf (input Sample.scriptsAndPage).
Proof.
  unfold JsObject.wf. simpl.
  repeat (constructor; [simpl; intuition discriminate|]). constructor.
Defined.

(** ** C1 *)

(** C1 (what the code does): for every CSS-only virtual entry the first
    matching request is answered as [text/css] and stores the import lines
    without the marker; the cache-hit branch tests the stored string for the
    marker, does not find it, and answers every later matching request with
    [Content-Type: application/javascript] and the import lines as body. *)
Theorem C1_cached_css_bundle_served_as_javascript plat server name input req1 req2
    (c : gmap string string) :
  cssOnly plat server input ->
  matches req1 ("/" +:+ name) ->
  matches req2 ("/" +:+ name) ->
  c !! name = None ->
  let bundle := cssBundleOf (importedFilesOf plat (getModuleByUrl server input)) in
  let first := handle plat server (Entry name input) req1 c in
  let second := handle plat server (Entry name input) req2 (cacheOf first) in
  responseOf (traceOf first) =
    [SetHeader contentType css; End_ (cssBundleMarker +:+ LF +:+ LF +:+ bundle)]
  /\ cacheOf first !! name = Some bundle
  /\ responseOf (traceOf second) = [SetHeader contentType javascript; End_ bundle]
  /\ cacheOf second = cacheOf first.
Proof.
  intros Hcss Hm1 Hm2 Hc bundle first second.
  destruct (css_branch_run plat server name input req1 c Hcss Hm1 Hc) as [Hr Hcache].
  assert (Hstored : cacheOf first !! name = Some bundle).
  { unfold first. rewrite Hcache. apply lookup_insert_eq. }
  destruct (cached_run plat server name input req2 (cacheOf first) bundle Hm2 Hstored)
    as (Hr2 & _ & Hc2).
  repeat split; [exact Hr | exact Hstored | | exact Hc2].
  fold second in Hr2. rewrite Hr2. unfold bundle.
  rewrite cssBundle_not_marked; [reflexivity|]. apply Hcss.
Qed.

Lemma C1_witness :
  responseOf (traceOf (Sample.request "virtual:css" "virtual:css" "/virtual:css"
     (cacheOf (Sample.request "virtual:css" "virtual:css" "/virtual:css" ∅)))) =
    [SetHeader "Content-Type" "application/javascript";
     End_ ("@import 'a.css';" +:+ LF +:+ "@import 'b.css';")].
Proof.
  apply (C1_cached_css_bundle_served_as_javascript Sample.plat Sample.server
           "virtual:css" "virtual:css" (Sample.get "/virtual:css")
           (Sample.get "/virtual:css") ∅ sample_css_only
           (sample_matches "/virtual:css") (sample_matches "/virtual:css")
           (lookup_empty _)).
Defined.

(** ** C2 *)

(** C2 (what the code does): with [exposedFolders: ["public"]] in a project
    [/proj] that holds [public/a.js] and [public/sub/b.css], the enumeration,
    asked for absolute paths, answers [/proj/public/a.js] and
    [/proj/public/sub/b.css].  The exposed routes registered are
    [//proj/a.js] and [//proj/sub/b.css]: the first [public/] is cut out of
    the absolute path.  Neither [/public/a.js] nor [/public/sub/b.css] is a
    route, a request for [/public/a.js] is passed on by every registered
    closure, and a request for [//proj/a.js] asks the host for the transform
    of [public//proj/a.js]. *)
Theorem C2_exposed_routes_lose_the_folder :
  let routes := routesOf (traceOf
     (configureServer Sample.plat Sample.options Sample.server ∅)) in
  globSync Sample.plat "public/**/*" = ["/proj/public/a.js"; "/proj/public/sub/b.css"]
  /\ List.map fst routes
     = ["//proj/a.js"; "//proj/sub/b.css";
        "/virtual:main"; "/virtual:css"; "/main"; "/empty"]
  /\ List.map (fun r => nextCalls (traceOf
                 (handle Sample.plat Sample.server (snd r) (Sample.get "/public/a.js") ∅)))
       routes
     = [1; 1; 1; 1; 1; 1]
  /\ List.map (fun r => responseOf (traceOf
                 (handle Sample.plat Sample.server (snd r) (Sample.get "/public/a.js") ∅)))
       routes
     = [[]; []; []; []; []; []]
  /\ transformsOf (traceOf (handle Sample.plat Sample.server
                              (ExposedFile "public" "/proj/a.js")
                              (Sample.get "//proj/a.js") ∅))
     = ["public//proj/a.js"].
Proof. repeat split. Qed.

(** ** C3 *)

Lemma allVirtual_spec (inputs : JsObject.t) :
  allVirtual inputs = true <->
  forall name locator, In (name, locator) inputs -> beginsWith locator "virtual:".
Proof.
  unfold allVirtual. rewrite forallb_forall. split.
  - intros H name locator Hin. apply startsWith_beginsWith.
    apply (H (name, locator)), ownEntries_In, Hin.
  - intros H [name locator] Hin. apply startsWith_beginsWith.
    apply (H name), ownEntries_In, Hin.
Qed.

Lemma noneVirtual_noPage_spec (inputs : JsObject.t) :
  noneVirtual inputs = true /\ noPage inputs = true <->
  forall name locator, In (name, locator) inputs ->
    ~ beginsWith locator "virtual:" /\ ~ endsIn locator "index.html".
Proof.
  unfold noneVirtual, noPage. rewrite !forallb_forall. split.
  - intros [Hv Hp] name locator Hin.
    apply (proj2 (ownEntries_In _ _)) in Hin.
    specialize (Hv _ Hin). specialize (Hp _ Hin). cbn [snd] in Hv, Hp.
    rewrite negb_true_iff in Hv, Hp.
    split; [apply startsWith_false, Hv | apply endsWith_false, Hp].
  - intros H. split; intros [name locator] Hin;
      apply (proj1 (ownEntries_In _ _)) in Hin;
      destruct (H name locator Hin) as [Hv Hp]; cbn [snd]; rewrite negb_true_iff;
      [apply startsWith_false, Hv | apply endsWith_false, Hp].
Qed.

(** C3 fails in both directions: with the entry map
    [{ main: "index.html", nested: "nested/index.html",
       "index.html": "src/app.ts" }]
    the key that ends in [index.html] is routed, at [/index.html], and the
    keys [main] and [nested], which do not, are not routed: the test is on
    the locator. *)
Lemma C3_counterexample :
  routesOf (traceOf (configureServer Sample.plat None Sample.pages ∅))
  = [("/index.html", Entry "index.html" "src/app.ts")]
  /\ endsWith "index.html" "index.html" = true
  /\ endsWith "main" "index.html" = false
  /\ endsWith "nested" "index.html" = false.
Proof. repeat split. Qed.

(** Which entries the loop of line 97 sees. *)
Lemma entry_routes plat options server (c0 : gmap string string) route name locator :
  In (route, Entry name locator)
     (routesOf (traceOf (configureServer plat options server c0))) <->
  route = "/" +:+ name /\ In (name, locator) (routedEntries (input server)).
Proof.
  rewrite routesOf_configureServer, in_app_iff. unfold exposedRoutes, entryRoutes.
  rewrite in_flat_map, in_map_iff. split.
  - intros [(folder & _ & Hin) | ([n l] & Heq & Hin)].
    + apply in_map_iff in Hin as (path & Heq & _). discriminate.
    + simpl in Heq. inversion Heq; subst. auto.
  - intros [-> Hin]. right. exists (name, locator). auto.
Qed.

(** The filters copy with an assignment, which adds no property under the
    key [__proto__]: the entry under that key is routed exactly when one of
    the filters finds nothing to drop and hands the map itself back, that
    is when every locator is virtual, or none is virtual and none is a
    page. *)
Lemma proto_entry_routed plat options server (c0 : gmap string string) locator :
  JsObject.wf (input server) ->
  In ("__proto__", locator) (input server) ->
  (In ("/__proto__", Entry "__proto__" locator)
      (routesOf (traceOf (configureServer plat options server c0))) <->
   (forall n l, In (n, l) (input server) -> beginsWith l "virtual:") \/
   (forall n l, In (n, l) (input server) ->
      ~ beginsWith l "virtual:" /\ ~ endsIn l "index.html")).
Proof.
  intros Hwf Hin.
  change "/__proto__" with ("/" +:+ "__proto__").
  rewrite entry_routes, routedEntries_In by exact Hwf.
  rewrite allVirtual_spec, noneVirtual_noPage_spec. split.
  - intros (_ & _ & _ & H). apply H. reflexivity.
  - intros H. split; [reflexivity|]. split; [exact Hin|]. split; [|intros _; exact H].
    rewrite startsWith_beginsWith, endsWith_false.
    destruct H as [H|H]; [left; exact (H _ _ Hin) | right; exact (proj2 (H _ _ Hin))].
Qed.

Example proto_entry :
  List.map fst (routesOf (traceOf
     (configureServer Sample.plat None Sample.scripts ∅)))
  = ["/__proto__"; "/x"]
  /\ List.map fst (routesOf (traceOf
        (configureServer Sample.plat None Sample.scriptsAndPage ∅)))
     = ["/x"].
Proof. split; reflexivity. Qed.

(** C3 (amended): an entry of the entry map, under a key other than
    [__proto__], is routed exactly when its input locator begins with
    [virtual:] or does not end in [index.html]; a routed entry has one
    route, at [/<name>], and every entry route comes from an entry of the
    map whose locator begins with [virtual:] or does not end in
    [index.html].  So no route is registered for a non-virtual entry whose
    locator ends in [index.html], whatever its key. *)
Theorem C3_routed_entries plat options server (c0 : gmap string string) :
  JsObject.wf (input server) ->
  let routes := routesOf (traceOf (configureServer plat options server c0)) in
  (forall name locator,
     In (name, locator) (input server) -> name <> "__proto__" ->
     (In ("/" +:+ name, Entry name locator) routes <->
      beginsWith locator "virtual:" \/ ~ endsIn locator "index.html"))
  /\ (forall route name locator,
        In (route, Entry name locator) routes ->
        route = "/" +:+ name /\ In (name, locator) (input server)
        /\ (beginsWith locator "virtual:" \/ ~ endsIn locator "index.html"))
  /\ List.NoDup (List.map fst (entryRoutes (input server))).
Proof.
  intros Hwf routes. split; [|split].
  - intros name locator Hin Hname. unfold routes.
    rewrite entry_routes, routedEntries_In by exact Hwf.
    rewrite startsWith_beginsWith, endsWith_false. tauto.
  - intros route name locator Hr. apply entry_routes in Hr as [-> Hin].
    apply routedEntries_sound in Hin; [|exact Hwf].
    rewrite startsWith_beginsWith, endsWith_false in Hin. tauto.
  - unfold entryRoutes. rewrite List.map_map. simpl.
    pose proof (routedEntries_wf (input server) Hwf) as Hnd. unfold JsObject.wf in Hnd.
    rewrite <- (List.map_map fst (fun k => String "/" k)).
    apply List.NoDup_map_NoDup_ForallPairs; [|exact Hnd].
    intros a b _ _ Hab. inversion Hab. reflexivity.
Qed.

Lemma C3_witness :
  (In ("/virtual:css", Entry "virtual:css" "virtual:css")
      (routesOf (traceOf (configureServer Sample.plat Sample.options Sample.server ∅)))
   <-> beginsWith "virtual:css" "virtual:" \/ ~ endsIn "virtual:css" "index.html")
  /\ (In ("/index.html", Entry "index.html" "index.html")
        (routesOf (traceOf (configureServer Sample.plat Sample.options Sample.server ∅)))
      <-> beginsWith "index.html" "virtual:" \/ ~ endsIn "index.html" "index.html")
  /\ (In ("/x", Entry "x" "src/x.ts")
        (routesOf (traceOf (configureServer Sample.plat None Sample.scriptsAndPage ∅)))
      <-> beginsWith "src/x.ts" "virtual:" \/ ~ endsIn "src/x.ts" "index.html").
Proof.
  pose proof (C3_routed_entries Sample.plat Sample.options Sample.server ∅ sample_wf)
    as (Hiff & _ & _).
  pose proof (C3_routed_entries Sample.plat None Sample.scriptsAndPage ∅ scripts_wf)
    as (Hiff' & _ & _).
  split; [|split].
  - apply Hiff; [simpl; tauto | discriminate].
  - apply Hiff; [simpl; tauto | discriminate].
  - apply Hiff'; [simpl; tauto | discriminate].
Defined.

(** ** C4 *)

(** C4: a virtual entry whose collected imports are exactly [a.css] and
    [b.css], in that order, answers its first matching request with
    [Content-Type: text/css] and the body made of the marker line, a blank
    line and one [@import '<path>';] line per file, joined by line feeds. *)
Theorem C4_css_bundle_first_response plat server name input req
    (c : gmap string string) :
  beginsWith input "virtual:" ->
  importedFilesOf plat (getModuleByUrl server input) = ["a.css"; "b.css"] ->
  matches req ("/" +:+ name) ->
  c !! name = None ->
  responseOf (traceOf (handle plat server (Entry name input) req c)) =
    [SetHeader "Content-Type" "text/css";
     End_ ("// type: cssBundle" +:+ LF +:+ LF
           +:+ "@import 'a.css';" +:+ LF +:+ "@import 'b.css';")].
Proof.
  intros Hv Hfiles Hm Hc.
  assert (Hcss : cssOnly plat server input).
  { split; [exact Hv|]. rewrite Hfiles. split; [discriminate|].
    repeat constructor; [exists "a" | exists "b"]; reflexivity. }
  destruct (css_branch_run plat server name input req c Hcss Hm Hc) as [-> _].
  rewrite Hfiles. reflexivity.
Qed.

Lemma C4_witness :
  responseOf (traceOf (Sample.request "virtual:css" "virtual:css" "/virtual:css" ∅)) =
    [SetHeader "Content-Type" "text/css";
     End_ ("// type: cssBundle" +:+ LF +:+ LF
           +:+ "@import 'a.css';" +:+ LF +:+ "@import 'b.css';")].
Proof.
  apply C4_css_bundle_first_response.
  - exists "css". reflexivity.
  - reflexivity.
  - apply sample_matches.
  - reflexivity.
Defined.

(** ** C5 *)

(** C5: on a matching request with no cached body, the entry is answered as
    a CSS bundle exactly when its locator begins with [virtual:], its
    collected import list is not empty and every collected path ends in
    [.css]; with no import, or with [a.css] and [b.js], the answer is the
    transformed code with [Content-Type: application/javascript]. *)
Theorem C5_css_only_iff plat server name input req (c : gmap string string) :
  matches req ("/" +:+ name) ->
  c !! name = None ->
  let files := importedFilesOf plat (getModuleByUrl server input) in
  let response := responseOf (traceOf (handle plat server (Entry name input) req c)) in
  (response = [SetHeader contentType css;
               End_ (cssBundleMarker +:+ LF +:+ LF +:+ cssBundleOf files)]
   <-> beginsWith input "virtual:" /\ files <> [] /\
       Forall (fun file => endsIn file ".css") files)
  /\ (isCssOnly [] = false /\
      (files = [] ->
       response = [SetHeader contentType javascript; End_ (codeOf server input)]))
  /\ (isCssOnly ["a.css"; "b.js"] = false /\
      (files = ["a.css"; "b.js"] ->
       response = [SetHeader contentType javascript; End_ (codeOf server input)])).
Proof.
  intros Hm Hc files response.
  assert (Hjs : ~ cssOnly plat server input ->
                response = [SetHeader contentType javascript; End_ (codeOf server input)]).
  { intros Hn. apply (js_branch_run plat server name input req c Hn Hm Hc). }
  split; [|split; split; try reflexivity].
  - split.
    + intros Hr. destruct (takesCssBranch plat server input) eqn:Hb.
      * apply takesCssBranch_cssOnly in Hb. exact Hb.
      * apply takesCssBranch_not_cssOnly in Hb. apply Hjs in Hb.
        rewrite Hb in Hr. discriminate.
    + intros Hcss. apply (css_branch_run plat server name input req c Hcss Hm Hc).
  - intros He. apply Hjs. intros (_ & Hne & _). fold files in Hne. congruence.
  - intros He. apply Hjs. intros (_ & _ & Hall). fold files in Hall.
    rewrite He in Hall. inversion Hall as [|? ? _ Hb]; subst.
    inversion Hb as [|? ? Hjs' _]; subst.
    apply endsWith_endsIn in Hjs'. discriminate.
Qed.

Lemma C5_witness :
  responseOf (traceOf (Sample.request "virtual:main" "virtual:main" "/virtual:main" ∅))
  = [SetHeader "Content-Type" "application/javascript";
     End_ "import '/a.css'; import '/b.js';"]
  /\ responseOf (traceOf (Sample.request "virtual:bare" "virtual:bare" "/virtual:bare" ∅))
     = [SetHeader "Content-Type" "application/javascript";
        End_ "export default 1;"].
Proof.
  split.
  - apply (C5_css_only_iff Sample.plat Sample.server "virtual:main" "virtual:main"
             (Sample.get "/virtual:main") ∅ (sample_matches "/virtual:main")
             (lookup_empty _)).
    reflexivity.
  - apply (proj2 (proj1 (proj2
             (C5_css_only_iff Sample.plat Sample.server "virtual:bare" "virtual:bare"
                (Sample.get "/virtual:bare") ∅ (sample_matches "/virtual:bare")
                (lookup_empty _))))).
    reflexivity.
Defined.

(** ** C6 *)

(** C6 fails for a transform result whose code is the empty string: the
    entry [empty -> src/empty.ts] is not CSS-only, its lookup yields the code
    [EmptyString], the first answer has that body, and nothing is stored
    under [empty]. *)
Lemma C6_counterexample :
  takesCssBranch Sample.plat Sample.server "src/empty.ts" = false
  /\ getModuleByUrl Sample.server "src/empty.ts" ≫= transformResult
     = Some {| code := EmptyString |}
  /\ responseOf (traceOf (Sample.request "empty" "src/empty.ts" "/empty" ∅))
     = [SetHeader "Content-Type" "application/javascript"; End_ EmptyString]
  /\ cacheOf (Sample.request "empty" "src/empty.ts" "/empty" ∅) !! "empty"
     = None.
Proof. repeat split. Qed.

(** C6 (amended): for an entry that is not CSS-only and whose lookup yields
    a non-empty code [X], the first matching request is answered with
    [application/javascript] and body [X], [X] is stored under the entry's
    name, and a second matching request is answered with body [X] without a
    lookup; when the lookup yields no transform result the body is empty, the
    cache is unchanged and the second request repeats the lookup. *)
Theorem C6_js_entry_cached plat server name input req1 req2
    (c : gmap string string) (X : string) :
  ~ cssOnly plat server input ->
  matches req1 ("/" +:+ name) ->
  matches req2 ("/" +:+ name) ->
  c !! name = None ->
  let first := handle plat server (Entry name input) req1 c in
  let second := handle plat server (Entry name input) req2 (cacheOf first) in
  (getModuleByUrl server input ≫= transformResult = Some {| code := X |} ->
   X <> EmptyString ->
   responseOf (traceOf first) = [SetHeader contentType javascript; End_ X]
   /\ cacheOf first !! name = Some X
   /\ (exists ct, responseOf (traceOf second) = [SetHeader contentType ct; End_ X])
   /\ lookupsOf (traceOf second) = [])
  /\ (getModuleByUrl server input ≫= transformResult = None ->
      responseOf (traceOf first) = [SetHeader contentType javascript; End_ EmptyString]
      /\ cacheOf first = c
      /\ lookupsOf (traceOf first) = [input]
      /\ lookupsOf (traceOf second) = [input]).
Proof.
  intros Hcss Hm1 Hm2 Hc first second.
  destruct (js_branch_run plat server name input req1 c Hcss Hm1 Hc) as (Hr & Hl & Hcache).
  fold first in Hr, Hl, Hcache. split.
  - intros HX Hne. unfold codeOf in *. rewrite HX in *. simpl in *.
    apply String.eqb_neq in Hne. rewrite Hne in Hcache. simpl in Hcache.
    assert (Hstored : cacheOf first !! name = Some X).
    { rewrite Hcache. apply lookup_insert_eq. }
    destruct (cached_run plat server name input req2 (cacheOf first) X Hm2 Hstored)
      as (Hr2 & Hl2 & _).
    repeat split; eauto.
  - intros HX. unfold codeOf in *. rewrite HX in *. simpl in *.
    assert (Hsame : cacheOf first = c) by exact Hcache.
    repeat split; auto.
    unfold second. rewrite Hsame.
    destruct (js_branch_run plat server name input req2 c Hcss Hm2 Hc) as (_ & Hl2 & _).
    exact Hl2.
Qed.

Lemma C6_witness :
  (responseOf (traceOf (Sample.request "main" "src/main.ts" "/main" ∅))
   = [SetHeader contentType javascript; End_ "console.log(1);"]
   /\ cacheOf (Sample.request "main" "src/main.ts" "/main" ∅) !! "main"
      = Some "console.log(1);"
   /\ (exists ct,
        responseOf (traceOf (Sample.request "main" "src/main.ts" "/main?import"
           (cacheOf (Sample.request "main" "src/main.ts" "/main" ∅))))
        = [SetHeader contentType ct; End_ "console.log(1);"])
   /\ lookupsOf (traceOf (Sample.request "main" "src/main.ts" "/main?import"
           (cacheOf (Sample.request "main" "src/main.ts" "/main" ∅))))
      = [])
  /\ (responseOf (traceOf (Sample.request "pending" "src/pending.ts" "/pending" ∅))
      = [SetHeader contentType javascript; End_ EmptyString]
      /\ cacheOf (Sample.request "pending" "src/pending.ts" "/pending" ∅) = ∅
      /\ lookupsOf (traceOf (Sample.request "pending" "src/pending.ts" "/pending" ∅))
         = ["src/pending.ts"]
      /\ lookupsOf (traceOf (Sample.request "pending" "src/pending.ts" "/pending"
            (cacheOf (Sample.request "pending" "src/pending.ts" "/pending" ∅))))
         = ["src/pending.ts"]).
Proof.
  split.
  - apply (C6_js_entry_cached Sample.plat Sample.server "main" "src/main.ts"
             (Sample.get "/main") (Sample.get "/main?import") ∅ "console.log(1);").
    + apply not_virtual_not_cssOnly. reflexivity.
    + apply sample_matches.
    + exists "/main?import". split; [reflexivity | exists "?import"; reflexivity].
    + apply lookup_empty.
    + reflexivity.
    + discriminate.
  - apply (C6_js_entry_cached Sample.plat Sample.server "pending" "src/pending.ts"
             (Sample.get "/pending") (Sample.get "/pending") ∅ EmptyString).
    + apply not_virtual_not_cssOnly. reflexivity.
    + apply sample_matches.
    + apply sample_matches.
    + apply lookup_empty.
    + reflexivity.
Defined.

(** ** C7 *)

Lemma handleSettling_fulfilled plat server h req :
  handleSettling Fulfilled plat server h req = handle plat server h req.
Proof. reflexivity. Qed.

(** A request whose awaited promise is rejected is its arrival followed by
    the loss of its closure. *)
Lemma handleSettling_as_tasks plat server h req reason (c : gmap string string) :
  let '(n, trace) :=
    runTasks plat server [Arrive h req; Reject 0] {| entryCache := c; inFlight := [] |} in
  entryCache n = cacheOf (handleSettling (Rejected reason) plat server h req c)
  /\ trace = traceOf (handleSettling (Rejected reason) plat server h req c)
  /\ inFlight n = [].
Proof.
  unfold handleSettling, settle, bind, runTasks, runTask, cacheOf, traceOf. simpl.
  destruct (call plat server h req c) as [[[k|] c1] trace1]; simpl; auto.
Qed.

(** A matching request reaches the [await] unless it is answered from the
    cache; if the promise is then rejected, the call to the host is all the
    closure has done. *)
Lemma rejected_run plat server h req reason (c : gmap string string) :
  matches req (routeOf h) -> awaits h c ->
  handleSettling (Rejected reason) plat server h req c =
  (tt, c,
   match h with
   | ExposedFile folder file =>
       [ConsoleDebug [LStr ("Request for the extra folder " +:+ DQ +:+ folder +:+ DQ
                            +:+ ", serving file: " +:+ file)];
        TransformRequest (folder +:+ "/" +:+ file)]
   | Entry name locator => [GetModuleByUrl locator]
   end).
Proof.
  intros Hm Hw. apply urlMismatch_matches in Hm.
  destruct h as [folder file | name locator]; cbn [routeOf awaits call] in *.
  - unfold handleSettling, settle, call, exposedFileMiddleware. rewrite Hm. reflexivity.
  - unfold handleSettling, settle, call, entryMiddleware. rewrite Hm.
    unfold bind, cacheHas, cacheGet, emit, finished, await, ret. cbv beta iota zeta.
    rewrite bool_decide_eq_false_2 by (rewrite Hw; intros [? ?]; discriminate).
    reflexivity.
Qed.

(** What is done before the [await] does not depend on how the promise
    settles. *)
Lemma settled_without_await plat server h req outcome (c : gmap string string) :
  fst (fst (call plat server h req c)) = None ->
  handleSettling outcome plat server h req c = handle plat server h req c.
Proof.
  unfold handleSettling, handle, settle, complete, bind.
  destruct (call plat server h req c) as [[[k|] c1] trace1]; simpl; [discriminate|].
  reflexivity.
Qed.

Lemma mismatch_no_await plat server h req (c : gmap string string) :
  ~ matches req (routeOf h) -> fst (fst (call plat server h req c)) = None.
Proof.
  intros Hm. apply urlMismatch_not_matches in Hm.
  destruct h as [folder file | name locator]; cbn [routeOf awaits call] in *.
  - unfold exposedFileMiddleware. rewrite Hm. reflexivity.
  - unfold entryMiddleware. rewrite Hm. reflexivity.
Qed.

Lemma hit_no_await plat server h req (c : gmap string string) :
  ~ awaits h c -> fst (fst (call plat server h req c)) = None.
Proof.
  intros Hw. destruct h as [folder file | name locator]; cbn [awaits call] in *; [tauto|].
  unfold entryMiddleware. destruct (urlMismatch req ("/" +:+ name)); [reflexivity|].
  unfold bind, cacheHas, cacheGet, emit, finished, await, ret. cbv beta iota zeta.
  destruct (c !! name) as [contents|] eqn:Hc; [|tauto].
  rewrite bool_decide_eq_true_2 by eauto. reflexivity.
Qed.

(** A matching request, the awaited promise fulfilled: no [next], one
    header, then one body. *)
Lemma fulfilled_response plat server h req (c : gmap string string) :
  matches req (routeOf h) ->
  nextCalls (traceOf (handle plat server h req c)) = 0 /\
  exists value body,
    responseOf (traceOf (handle plat server h req c))
    = [SetHeader contentType value; End_ body].
Proof.
  intros Hm. destruct h as [folder file | name input]; simpl in *.
  - rewrite (exposed_match plat server folder file req c Hm).
    split; [reflexivity | eauto].
  - destruct (c !! name) as [contents|] eqn:Hc.
    + rewrite (entry_hit plat server name input req c contents Hm Hc).
      split; [reflexivity | eauto].
    + destruct (takesCssBranch plat server input) eqn:Hb.
      * rewrite (entry_miss_css plat server name input req c Hm Hc Hb).
        split; [reflexivity | eauto].
      * rewrite (entry_miss_js plat server name input req c Hm Hc Hb).
        split; [reflexivity | eauto].
Qed.

Lemma mismatch_run plat server h req (c : gmap string string) :
  ~ matches req (routeOf h) -> handle plat server h req c = (tt, c, [Next]).
Proof.
  destruct h as [folder file | name input]; simpl.
  - apply exposed_mismatch.
  - apply entry_mismatch.
Qed.

(** C7 fails on a request that matches: when the lookup of the module, or
    the transform of an exposed file, is rejected, the closure has called the
    host and does nothing more; no header is set, no body is sent and [next]
    is not called.  Here [GET /main] for the entry [main] and
    [GET //proj/a.js] for the exposed file, both routes of the sample
    project, first as one run, then as tasks of the host. *)
Lemma C7_counterexample :
  let routes :=
    routesOf (traceOf (configureServer Sample.plat Sample.options Sample.server ∅)) in
  let entry :=
    handleSettling (Rejected "no such module") Sample.plat Sample.server
      (Entry "main" "src/main.ts") (Sample.get "/main") ∅ in
  let exposedFile :=
    handleSettling (Rejected "no such file") Sample.plat Sample.server
      (ExposedFile "public" "/proj/a.js") (Sample.get "//proj/a.js") ∅ in
  existsb (fun r => String.eqb (fst r) "/main") routes = true
  /\ existsb (fun r => String.eqb (fst r) "//proj/a.js") routes = true
  /\ urlMismatch (Sample.get "/main") "/main" = false
  /\ urlMismatch (Sample.get "//proj/a.js") "//proj/a.js" = false
  /\ traceOf entry = [GetModuleByUrl "src/main.ts"]
  /\ responseOf (traceOf entry) = []
  /\ nextCalls (traceOf entry) = 0
  /\ transformsOf (traceOf exposedFile) = ["public//proj/a.js"]
  /\ responseOf (traceOf exposedFile) = []
  /\ nextCalls (traceOf exposedFile) = 0
  /\ snd (runTasks Sample.plat Sample.server
            [Arrive (Entry "main" "src/main.ts") (Sample.get "/main"); Reject 0]
            {| entryCache := ∅; inFlight := [] |})
     = [GetModuleByUrl "src/main.ts"].
Proof. repeat split. Qed.

(** C7 (amended): a closure registered by [configureServer] at a route,
    given a request whose [originalUrl] does not begin with that route,
    calls [next] once, sets no header, sends no body and leaves the cache
    alone, however the host behaves.  Given a request whose URL begins with
    the route it never calls [next]; it writes one response, one header then
    one body, when the host call it awaits (the transform for an exposed
    file, the lookup of the module for an entry that is not cached) is
    fulfilled, and also when it awaits nothing, the entry being cached; when
    the awaited call is rejected it has called the host and writes nothing,
    and the cache is left alone. *)
Theorem C7_prefix_guard plat options server route h req (outcome : Settled)
    (c0 c : gmap string string) :
  In (route, h) (routesOf (traceOf (configureServer plat options server c0))) ->
  let run := handleSettling outcome plat server h req c in
  (~ matches req route ->
   nextCalls (traceOf run) = 1 /\ responseOf (traceOf run) = [] /\ cacheOf run = c)
  /\ (matches req route ->
      nextCalls (traceOf run) = 0
      /\ (outcome = Fulfilled \/ ~ awaits h c ->
          exists value body,
            responseOf (traceOf run) = [SetHeader contentType value; End_ body])
      /\ (outcome <> Fulfilled -> awaits h c ->
          responseOf (traceOf run) = [] /\ cacheOf run = c
          /\ List.length (lookupsOf (traceOf run) ++ transformsOf (traceOf run)) = 1)).
Proof.
  intros Hreg run. apply registered_route in Hreg. subst route. split; intros Hm.
  - unfold run.
    rewrite (settled_without_await plat server h req outcome c
               (mismatch_no_await plat server h req c Hm)).
    rewrite (mismatch_run plat server h req c Hm). auto.
  - assert (Hanswered : outcome = Fulfilled \/ ~ awaits h c ->
              run = handle plat server h req c).
    { intros [-> | Hw]; [reflexivity|].
      apply settled_without_await, hit_no_await, Hw. }
    assert (Hlost : outcome <> Fulfilled -> awaits h c ->
              traceOf run = traceOf (handleSettling (Rejected EmptyString)
                                       plat server h req c)
              /\ cacheOf run = c).
    { intros Hout Hw. unfold run. destruct outcome as [|reason]; [congruence|].
      rewrite !(rejected_run plat server h req _ c Hm Hw). auto. }
    split; [|split].
    + destruct outcome as [|reason].
      * apply (fulfilled_response plat server h req c Hm).
      * destruct (awaits_dec h c) as [Hw|Hw].
        -- unfold run. rewrite (rejected_run plat server h req reason c Hm Hw).
           destruct h; reflexivity.
        -- rewrite (Hanswered (or_intror Hw)).
           apply (fulfilled_response plat server h req c Hm).
    + intros Hcase. rewrite (Hanswered Hcase).
      apply (fulfilled_response plat server h req c Hm).
    + intros Hout Hw. destruct (Hlost Hout Hw) as [-> ->].
      rewrite (rejected_run plat server h req EmptyString c Hm Hw).
      destruct h; repeat split.
Qed.

Lemma C7_witness :
  (nextCalls (traceOf (Sample.request "main" "src/main.ts" "/other" ∅)) = 1
   /\ responseOf (traceOf (Sample.request "main" "src/main.ts" "/other" ∅)) = []
   /\ cacheOf (Sample.request "main" "src/main.ts" "/other" ∅) = ∅)
  /\ (nextCalls (traceOf (handle Sample.plat Sample.server
                            (ExposedFile "public" "/proj/a.js")
                            (Sample.get "//proj/a.js") ∅)) = 0
      /\ exists value body,
           responseOf (traceOf (handle Sample.plat Sample.server
                                  (ExposedFile "public" "/proj/a.js")
                                  (Sample.get "//proj/a.js") ∅))
           = [SetHeader contentType value; End_ body])
  /\ (responseOf (traceOf (handleSettling (Rejected "no such module")
                             Sample.plat Sample.server
                             (Entry "main" "src/main.ts") (Sample.get "/main") ∅)) = []
      /\ cacheOf (handleSettling (Rejected "no such module")
                    Sample.plat Sample.server
                    (Entry "main" "src/main.ts") (Sample.get "/main") ∅) = ∅).
Proof.
  split; [|split].
  - apply (C7_prefix_guard Sample.plat Sample.options
             Sample.server "/main" (Entry "main" "src/main.ts")
             (Sample.get "/other") Fulfilled ∅ ∅).
    + vm_compute. tauto.
    + intros (url & Hurl & rest & Hrest). inversion Hurl; subst. discriminate.
  - pose proof (C7_prefix_guard Sample.plat Sample.options
             Sample.server "//proj/a.js" (ExposedFile "public" "/proj/a.js")
             (Sample.get "//proj/a.js") Fulfilled ∅ ∅) as H.
    destruct H as [_ H]; [vm_compute; tauto|].
    destruct (H (sample_matches _)) as (Hn & Hone & _).
    split; [exact Hn | apply Hone; left; reflexivity].
  - pose proof (C7_prefix_guard Sample.plat Sample.options
             Sample.server "/main" (Entry "main" "src/main.ts")
             (Sample.get "/main") (Rejected "no such module") ∅ ∅) as H.
    destruct H as [_ H]; [vm_compute; tauto|].
    destruct (H (sample_matches _)) as (_ & _ & Hlost).
    destruct Hlost as (Hr & Hc & _); [discriminate | apply lookup_empty |].
    split; [exact Hr | exact Hc].
Defined.

(** ** C8 *)





(** In the sample project the warm-up of [virtual:main] is rejected: it is
    logged, and the four other entries and the two exposed files are routed
    all the same. *)
Example sample_warmup_failure :
  let trace := traceOf (configureServer Sample.plat Sample.options Sample.server ∅) in
  List.flat_map runJob (pendingJobs Sample.server trace)
  = [ConsoleError [LStr "Error warming up request for virtual:main:";
                   LErr "warm-up failed"]]
  /\ List.length (routesOf trace) = 6.
Proof. split; reflexivity. Qed.

(** ** C9 *)



(** Two requests for one entry that both arrive before either resumes both
    miss the cache, both look the module up and both store the body. *)
Example race_on_a_cold_entry :
  let '(n, trace) :=
    runTasks Sample.plat Sample.server
      [Arrive (Entry "main" "src/main.ts") (Sample.get "/main");
       Arrive (Entry "main" "src/main.ts") (Sample.get "/main");
       Resume 0; Resume 0]
      {| entryCache := ∅; inFlight := [] |} in
  lookupsOf trace = ["src/main.ts"; "src/main.ts"]
  /\ responseOf trace =
     [SetHeader contentType javascript; End_ "console.log(1);";
      SetHeader contentType javascript; End_ "console.log(1);"]
  /\ entryCache n !! "main" = Some "console.log(1);".
Proof. repeat split. Qed.

(** ** C10 *)

(** Requests in a row for one entry. *)
Lemma serve_uncached plat server name input (reqs : list IncomingMessage)
    (c : gmap string string) :
  ~ cssOnly plat server input ->
  codeOf server input = EmptyString ->
  c !! name = None ->
  Forall (fun req => matches req ("/" +:+ name)) reqs ->
  lookupsOf (traceOf (serve plat server
                        (List.map (fun req => (Entry name input, req)) reqs) c))
    = List.repeat input (List.length reqs)
  /\ cacheOf (serve plat server
                (List.map (fun req => (Entry name input, req)) reqs) c) = c.
Proof.
  intros Hcss Hcode Hc Hall. induction Hall as [|req reqs Hm _ IH].
  - split; reflexivity.
  - cbn [List.map List.length List.repeat].
    destruct (serve_cons plat server (Entry name input) req
                (List.map (fun req => (Entry name input, req)) reqs) c) as [-> ->].
    destruct (js_branch_run plat server name input req c Hcss Hm Hc) as (_ & Hl & Hcache).
    rewrite Hcode in Hcache. simpl in Hcache.
    rewrite lookupsOf_app, Hl, Hcache.
    destruct IH as [-> ->]. split; reflexivity.
Qed.

(** C10: the truthiness test takes the empty string as it takes a missing
    code; so when the lookup yields a transform result whose code is the
    empty string, an entry that is not CSS-only is answered with an empty
    body, nothing is stored in the cache, and each of the matching requests
    that follow performs the module-graph lookup again. *)
Theorem C10_empty_code_is_not_cached plat server name input
    (req : IncomingMessage) (later : list IncomingMessage) (c : gmap string string) :
  ~ cssOnly plat server input ->
  getModuleByUrl server input ≫= transformResult = Some {| code := EmptyString |} ->
  c !! name = None ->
  matches req ("/" +:+ name) ->
  Forall (fun req => matches req ("/" +:+ name)) later ->
  let first := handle plat server (Entry name input) req c in
  let rest := serve plat server
                (List.map (fun req => (Entry name input, req)) later) (cacheOf first) in
  truthy (Some EmptyString) = truthy None
  /\ responseOf (traceOf first) = [SetHeader contentType javascript; End_ EmptyString]
  /\ lookupsOf (traceOf first) = [input]
  /\ cacheOf first = c
  /\ lookupsOf (traceOf rest) = List.repeat input (List.length later)
  /\ cacheOf rest = c.
Proof.
  intros Hcss Hcode Hc Hm Hlater first rest. split; [reflexivity|].
  assert (Hempty : codeOf server input = EmptyString).
  { unfold codeOf. rewrite Hcode. reflexivity. }
  destruct (js_branch_run plat server name input req c Hcss Hm Hc) as (Hr & Hl & Hcache).
  rewrite Hempty in Hr, Hcache. simpl in Hcache.
  fold first in Hr, Hl, Hcache.
  destruct (serve_uncached plat server name input later c Hcss Hempty Hc Hlater)
    as [Hl2 Hc2].
  unfold rest. rewrite Hcache. auto.
Qed.

Lemma C10_witness :
  lookupsOf (traceOf (serve Sample.plat Sample.server
    (List.map (fun req => (Entry "empty" "src/empty.ts", req))
       [Sample.get "/empty"; Sample.get "/empty?t=1"])
    (cacheOf (Sample.request "empty" "src/empty.ts" "/empty" ∅))))
  = ["src/empty.ts"; "src/empty.ts"].
Proof.
  apply (C10_empty_code_is_not_cached Sample.plat Sample.server "empty" "src/empty.ts"
           (Sample.get "/empty") [Sample.get "/empty"; Sample.get "/empty?t=1"] ∅).
  - apply not_virtual_not_cssOnly. reflexivity.
  - reflexivity.
  - apply lookup_empty.
  - apply sample_matches.
  - repeat constructor.
    + apply sample_matches.
    + exists "/empty?t=1". split; [reflexivity | exists "?t=1"; reflexivity].
Defined.

(** * Further properties *)

(** ** Schedules *)

Lemma call_rest plat server h req (c : gmap string string) k :
  fst (fst (call plat server h req c)) = Some k -> k = afterAwait plat server h.
Proof.
  destruct h as [folder file | name input]; simpl.
  - unfold exposedFileMiddleware.
    destruct (urlMismatch req ("/" +:+ file)); simpl; [discriminate|].
    intros Hk. inversion Hk. reflexivity.
  - unfold entryMiddleware.
    destruct (urlMismatch req ("/" +:+ name)); simpl; [discriminate|].
    unfold bind, cacheHas, cacheGet, emit, finished, await, ret.
    cbv beta iota zeta.
    destruct (bool_decide (is_Some (c !! name))); simpl; [discriminate|].
    intros Hk. inversion Hk. reflexivity.
Qed.

(** A property of the cache that the second part of every closure reached
    keeps is kept by the whole schedule. *)
Lemma runTasks_invariant plat server (I : gmap string string -> Prop)
    (tasks : list Task) :
  forall n : Node,
    Forall (fun h => forall c, I c -> I (cacheOf (afterAwait plat server h c)))
      (arrivals tasks) ->
    Forall (fun k : M unit => forall c, I c -> I (cacheOf (k c))) (inFlight n) ->
    I (entryCache n) ->
    I (entryCache (fst (runTasks plat server tasks n))).
Proof.
  induction tasks as [|t tasks IH]; intros n Harr Hfl Hn; [exact Hn|].
  cbn [runTasks].
  assert (Hstep :
    Forall (fun h => forall c, I c -> I (cacheOf (afterAwait plat server h c)))
      (arrivals tasks)
    /\ Forall (fun k : M unit => forall c, I c -> I (cacheOf (k c)))
         (inFlight (fst (runTask plat server t n)))
    /\ I (entryCache (fst (runTask plat server t n)))).
  { destruct t as [h req | i | i]; cbn [runTask].
    - unfold arrivals in Harr. cbn in Harr. inversion Harr as [|? ? Hh Harr']; subst.
      destruct (call_first_part plat server h req (entryCache n)) as [Hc _].
      pose proof (call_rest plat server h req (entryCache n)) as Hrest.
      destruct (call plat server h req (entryCache n)) as [[rest c] trace].
      unfold cacheOf in Hc. simpl in *. subst c.
      split; [exact Harr'|]. split; [|exact Hn].
      apply Forall_app. split; [exact Hfl|].
      destruct rest as [k|]; [|constructor].
      rewrite (Hrest k eq_refl). constructor; [exact Hh | constructor].
    - split; [exact Harr|].
      destruct (inFlight n !! i) as [k|] eqn:Hi; simpl; [|auto].
      assert (Hk : forall c, I c -> I (cacheOf (k c))).
      { rewrite List.Forall_forall in Hfl. apply Hfl.
        apply list_elem_of_In. eapply list_elem_of_lookup_2. exact Hi. }
      specialize (Hk (entryCache n) Hn). unfold cacheOf in Hk.
      destruct (k (entryCache n)) as [[[] c] trace]. simpl in *.
      split; [|exact Hk]. apply Forall_delete. exact Hfl.
    - split; [exact Harr|]. simpl. split; [|exact Hn].
      apply Forall_delete. exact Hfl. }
  destruct Hstep as (Harr' & Hfl' & Hn').
  destruct (runTask plat server t n) as [n1 trace1]. simpl in *.
  specialize (IH n1 Harr' Hfl' Hn').
  destruct (runTasks plat server tasks n1) as [n2 trace2]. exact IH.
Qed.

(** Requests run one after the other are one of the schedules. *)
Lemma serve_as_tasks plat server (reqs : list (Middleware * IncomingMessage))
    (c : gmap string string) :
  runTasks plat server (sequential reqs) {| entryCache := c; inFlight := [] |}
  = ({| entryCache := cacheOf (serve plat server reqs c); inFlight := [] |},
     traceOf (serve plat server reqs c)).
Proof.
  revert c. induction reqs as [|[h req] reqs IH]; intros c; [reflexivity|].
  destruct (serve_cons plat server h req reqs c) as [-> ->].
  unfold sequential. cbn [List.flat_map app fst snd]. fold (sequential reqs).
  cbn [runTasks runTask entryCache inFlight app].
  unfold handle, complete, bind, cacheOf, traceOf.
  destruct (call plat server h req c) as [[[k|] c1] trace1]; cbn.
  - destruct (k c1) as [[[] c2] trace2]. cbn.
    rewrite IH. cbn. rewrite <- app_assoc. reflexivity.
  - rewrite IH. cbn. rewrite !app_nil_r. reflexivity.
Qed.

Lemma arrivals_sequential (reqs : list (Middleware * IncomingMessage)) :
  arrivals (sequential reqs) = List.map fst reqs.
Proof.
  induction reqs as [|[h req] reqs IH]; [reflexivity|].
  unfold sequential, arrivals in *. cbn. rewrite IH. reflexivity.
Qed.

Lemma entryAfterAwait_nonEmpty plat server name input (c : gmap string string) :
  nonEmptyBodies c ->
  nonEmptyBodies (cacheOf (entryAfterAwait plat server name input c)).
Proof.
  intros Hc. rewrite entryAfterAwait_run.
  destruct (takesCssBranch plat server input) eqn:Hb; unfold cacheOf; simpl.
  - apply takesCssBranch_cssOnly in Hb as (_ & Hne & _).
    intros name' body Hl. destruct (decide (name = name')) as [<-|Hn].
    + rewrite lookup_insert_eq in Hl. inversion Hl; subst.
      apply cssBundle_not_empty, Hne.
    + rewrite lookup_insert_ne in Hl by exact Hn. eapply Hc, Hl.
  - destruct (String.eqb (codeOf server input) EmptyString) eqn:He; simpl; [exact Hc|].
    apply String.eqb_neq in He.
    intros name' body Hl. destruct (decide (name = name')) as [<-|Hn].
    + rewrite lookup_insert_eq in Hl. inversion Hl; subst. exact He.
    + rewrite lookup_insert_ne in Hl by exact Hn. eapply Hc, Hl.
Qed.

Lemma afterAwait_nonEmpty plat server h (c : gmap string string) :
  nonEmptyBodies c -> nonEmptyBodies (cacheOf (afterAwait plat server h c)).
Proof.
  destruct h as [folder file | name input]; simpl.
  - intros Hc. exact Hc.
  - apply entryAfterAwait_nonEmpty.
Qed.

Lemma registered_entry plat options server (c0 : gmap string string)
    route name locator :
  In (route, Entry name locator)
     (routesOf (traceOf (configureServer plat options server c0))) ->
  In (name, locator) (routedEntries (input server)).
Proof.
  rewrite routesOf_configureServer, in_app_iff.
  unfold exposedRoutes, entryRoutes. rewrite in_flat_map, in_map_iff.
  intros [(folder & _ & Hin) | ([n l] & Heq & Hin)].
  - apply in_map_iff in Hin as (path & Heq & _). discriminate.
  - simpl in Heq. inversion Heq; subst. exact Hin.
Qed.

Lemma size_bound (c : gmap string string) (l : list string) :
  (forall k, is_Some (c !! k) -> In k l) -> size c <= List.length l.
Proof.
  intros Hin. rewrite <- size_dom. unfold size, set_size. simpl.
  apply List.NoDup_incl_length.
  - apply NoDup_ListNoDup, NoDup_elements.
  - intros k Hk. apply Hin, elem_of_dom, elem_of_elements, list_elem_of_In, Hk.
Qed.

(** ** Invariants of the entry cache *)

(** X5: whatever requests arrive and however their parts interleave, no
    body stored in the entry cache is the empty string: a cache hit never
    falls back on the empty default of [entryCache.get(name) ?? ''] and
    never sends an empty body. *)
Theorem X5_cached_bodies_never_empty plat server (tasks : list Task)
    (reqs : list (Middleware * IncomingMessage)) :
  nonEmptyBodies (entryCache (fst (runTasks plat server tasks
                                     {| entryCache := ∅; inFlight := [] |})))
  /\ nonEmptyBodies (cacheOf (serve plat server reqs ∅))
  /\ forall h req,
       let c := cacheOf (serve plat server reqs ∅) in
       ~ In (End_ EmptyString) (traceOf (call plat server h req c)).
Proof.
  assert (Hany : forall ts,
    nonEmptyBodies (entryCache (fst (runTasks plat server ts
                                       {| entryCache := ∅; inFlight := [] |})))).
  { intros ts. apply (runTasks_invariant plat server nonEmptyBodies).
    - apply List.Forall_forall. intros h _ c. apply afterAwait_nonEmpty.
    - constructor.
    - intros name body Hl. simpl in Hl. rewrite lookup_empty in Hl. discriminate. }
  assert (Hseq : nonEmptyBodies (cacheOf (serve plat server reqs ∅))).
  { specialize (Hany (sequential reqs)). rewrite serve_as_tasks in Hany. exact Hany. }
  split; [apply Hany | split; [exact Hseq|]].
  intros h req c. unfold c. clear c.
  set (c := cacheOf (serve plat server reqs ∅)) in *.
  destruct h as [folder file | name input]; simpl.
  - unfold exposedFileMiddleware.
    destruct (urlMismatch req ("/" +:+ file)); simpl; intuition discriminate.
  - unfold entryMiddleware.
    destruct (urlMismatch req ("/" +:+ name)); simpl; [intuition discriminate|].
    unfold bind, cacheHas, cacheGet, emit, finished, await, ret, traceOf.
    cbv beta iota zeta.
    destruct (c !! name) as [body|] eqn:Hl.
    + rewrite bool_decide_eq_true_2 by eauto. cbv beta iota zeta. rewrite Hl. simpl.
      intros [H | [H | [H | []]]]; try discriminate.
      inversion H as [Hb]. exact (Hseq name body Hl Hb).
    + rewrite bool_decide_eq_false_2 by (intros [? ?]; discriminate).
      simpl. intuition discriminate.
Qed.

(** X6: the entry cache is bounded by the entry map.  When every request
    reaches a closure that [configureServer] registered, then over every
    interleaving, starting from the cache [configureServer] created, each
    bound name is the name of a routed entry, and the cache holds at most
    as many bodies as there are routed entries. *)
Theorem X6_cache_bounded_by_routed_entries plat options server
    (c0 : gmap string string) (tasks : list Task) :
  Forall (fun h => exists route,
            In (route, h) (routesOf (traceOf (configureServer plat options server c0))))
    (arrivals tasks) ->
  let c := entryCache (fst (runTasks plat server tasks
             {| entryCache := cacheOf (configureServer plat options server c0);
                inFlight := [] |})) in
  (forall name, is_Some (c !! name) ->
                exists locator, In (name, locator) (routedEntries (input server)))
  /\ size c <= List.length (routedEntries (input server)).
Proof.
  intros Hreg c.
  assert (Hkeys : forall name, is_Some (c !! name) ->
                    In name (List.map fst (routedEntries (input server)))).
  { unfold c.
    apply (runTasks_invariant plat server
             (fun c => forall name, is_Some (c !! name) ->
                         In name (List.map fst (routedEntries (input server))))).
    - eapply Forall_impl; [exact Hreg|]. intros h [route Hin] c1 Hc1.
      destruct h as [folder file | name locator]; simpl; [exact Hc1|].
      apply registered_entry in Hin.
      rewrite entryAfterAwait_run. intros k Hk.
      assert (Hcase : k = name \/ is_Some (c1 !! k)).
      { destruct (takesCssBranch plat server locator); unfold cacheOf in Hk; simpl in Hk.
        - apply lookup_insert_is_Some' in Hk. destruct Hk; auto.
        - destruct (negb (String.eqb (codeOf server locator) EmptyString)); [|auto].
          apply lookup_insert_is_Some' in Hk. destruct Hk; auto. }
      destruct Hcase as [-> | Hk']; [|auto].
      apply in_map_iff. exists (name, locator). auto.
    - constructor.
    - rewrite configureServer_run. unfold cacheOf. simpl.
      intros name [body Hl]. simpl in Hl. rewrite lookup_empty in Hl. discriminate. }
  split.
  - intros name Hname. apply Hkeys, in_map_iff in Hname as ([n l] & <- & Hin).
    exists l. exact Hin.
  - rewrite <- (length_map fst). apply size_bound, Hkeys.
Qed.

Lemma X6_witness :
  size (entryCache (fst (runTasks Sample.plat Sample.server
          [Arrive (Entry "main" "src/main.ts") (Sample.get "/main");
           Arrive (Entry "virtual:css" "virtual:css") (Sample.get "/virtual:css");
           Arrive (Entry "main" "src/main.ts") (Sample.get "/main");
           Resume 1; Resume 0; Resume 0]
          {| entryCache := cacheOf (configureServer Sample.plat Sample.options
                                      Sample.server ∅);
             inFlight := [] |}))) <= 4.
Proof.
  change 4 with (List.length (routedEntries (input Sample.server))).
  apply (X6_cache_bounded_by_routed_entries Sample.plat Sample.options Sample.server ∅
           [Arrive (Entry "main" "src/main.ts") (Sample.get "/main");
            Arrive (Entry "virtual:css" "virtual:css") (Sample.get "/virtual:css");
            Arrive (Entry "main" "src/main.ts") (Sample.get "/main");
            Resume 1; Resume 0; Resume 0]).
  repeat constructor.
  - exists "/main". vm_compute. tauto.
  - exists "/virtual:css". vm_compute. tauto.
  - exists "/main". vm_compute. tauto.
Defined.

(** ** Two requests for a cold entry *)

Lemma entry_call_miss plat server name locator req (c : gmap string string) :
  matches req ("/" +:+ name) ->
  c !! name = None ->
  call plat server (Entry name locator) req c
  = (Some (entryAfterAwait plat server name locator), c, [GetModuleByUrl locator]).
Proof.
  intros Hm Hc. apply urlMismatch_matches in Hm.
  unfold call, entryMiddleware. rewrite Hm.
  unfold bind, cacheHas, cacheGet, emit, finished, await, ret. cbv beta iota zeta.
  rewrite Hc, bool_decide_eq_false_2 by (intros [? ?]; discriminate).
  reflexivity.
Qed.

(** The second part of the entry middleware sends the same whatever the
    cache holds, and writing twice is writing once. *)
Lemma entryAfterAwait_again plat server name locator (c : gmap string string) :
  traceOf (entryAfterAwait plat server name locator
             (cacheOf (entryAfterAwait plat server name locator c)))
  = traceOf (entryAfterAwait plat server name locator c)
  /\ cacheOf (entryAfterAwait plat server name locator
                (cacheOf (entryAfterAwait plat server name locator c)))
     = cacheOf (entryAfterAwait plat server name locator c).
Proof.
  rewrite !entryAfterAwait_run.
  destruct (takesCssBranch plat server locator); unfold cacheOf, traceOf; simpl.
  - rewrite insert_insert_eq. auto.
  - destruct (negb (String.eqb (codeOf server locator) EmptyString)); simpl.
    + rewrite insert_insert_eq. auto.
    + auto.
Qed.

(** X7: two requests for one entry with no cached body that both arrive
    before either resumes both miss the cache, both look the module up and
    both get the answer of a first request (for a CSS-only entry both are
    [text/css] with the marker); the cache ends as one request alone leaves
    it. *)
Theorem X7_race_on_cold_entry plat server name locator req1 req2
    (c : gmap string string) :
  matches req1 ("/" +:+ name) ->
  matches req2 ("/" +:+ name) ->
  c !! name = None ->
  let alone := handle plat server (Entry name locator) req1 c in
  let both := runTasks plat server
                [Arrive (Entry name locator) req1; Arrive (Entry name locator) req2;
                 Resume 0; Resume 0]
                {| entryCache := c; inFlight := [] |} in
  lookupsOf (snd both) = [locator; locator]
  /\ responseOf (snd both) = responseOf (traceOf alone) ++ responseOf (traceOf alone)
  /\ entryCache (fst both) = cacheOf alone
  /\ inFlight (fst both) = [].
Proof.
  intros Hm1 Hm2 Hc alone both.
  destruct (entryAfterAwait_again plat server name locator c) as [Htrace Hcache].
  unfold both, alone. rewrite (entry_match plat server name locator req1 c Hm1), Hc.
  cbn [runTasks runTask entryCache inFlight].
  rewrite (entry_call_miss plat server name locator req1 c Hm1 Hc).
  cbn [entryCache inFlight app].
  rewrite (entry_call_miss plat server name locator req2 c Hm2 Hc).
  cbn [entryCache inFlight app]. cbn [lookup list_lookup].
  unfold cacheOf, traceOf in *.
  destruct (entryAfterAwait plat server name locator c) as [[[] c1] trace1] eqn:H1.
  cbn [fst snd entryCache inFlight] in *. cbn [delete list_delete lookup list_lookup].
  destruct (entryAfterAwait plat server name locator c1) as [[[] c2] trace2] eqn:H2.
  cbn [fst snd entryCache inFlight] in *. subst c2 trace2.
  pose proof (entryAfterAwait_run plat server name locator c) as Hrun.
  rewrite H1 in Hrun.
  assert (Hquiet : lookupsOf trace1 = []
                   /\ responseOf (GetModuleByUrl locator :: trace1) = responseOf trace1).
  { destruct (takesCssBranch plat server locator); inversion Hrun; subst; auto. }
  destruct Hquiet as [Hl Hr].
  repeat split.
  - cbn. rewrite !app_nil_r. unfold lookupsOf in *. cbn.
    rewrite !omap_app, Hl. reflexivity.
  - rewrite Hr. cbn. rewrite !app_nil_r. unfold responseOf.
    rewrite List.filter_app. reflexivity.
Qed.

Lemma X7_witness :
  lookupsOf (snd (runTasks Sample.plat Sample.server
     [Arrive (Entry "virtual:css" "virtual:css") (Sample.get "/virtual:css");
      Arrive (Entry "virtual:css" "virtual:css") (Sample.get "/virtual:css?v=2");
      Resume 0; Resume 0]
     {| entryCache := ∅; inFlight := [] |}))
  = ["virtual:css"; "virtual:css"].
Proof.
  apply (X7_race_on_cold_entry Sample.plat Sample.server "virtual:css" "virtual:css"
           (Sample.get "/virtual:css") (Sample.get "/virtual:css?v=2") ∅).
  - apply sample_matches.
  - exists "/virtual:css?v=2". split; [reflexivity | exists "?v=2"; reflexivity].
  - apply lookup_empty.
Defined.

(** ** What a request is looked at for *)

(** X1: a closure looks at the request only to test whether its
    [originalUrl] begins with the route: two requests that pass the test
    alike (whatever follows the route in the URL: a query, a longer path,
    more letters) are handled alike, call for call, from the same cache. *)
Theorem X1_only_the_prefix_counts plat server h req1 req2 (c : gmap string string) :
  (matches req1 (routeOf h) <-> matches req2 (routeOf h)) ->
  handle plat server h req1 c = handle plat server h req2 c.
Proof.
  intros Hiff.
  destruct (urlMismatch req1 (routeOf h)) eqn:H1.
  - apply urlMismatch_not_matches in H1.
    assert (H2 : ~ matches req2 (routeOf h)) by tauto.
    destruct h as [folder file | name locator]; simpl in *.
    + rewrite (exposed_mismatch plat server folder file req1 c H1),
        (exposed_mismatch plat server folder file req2 c H2). reflexivity.
    + rewrite (entry_mismatch plat server name locator req1 c H1),
        (entry_mismatch plat server name locator req2 c H2). reflexivity.
  - apply urlMismatch_matches in H1.
    assert (H2 : matches req2 (routeOf h)) by tauto.
    destruct h as [folder file | name locator]; simpl in *.
    + rewrite (exposed_match plat server folder file req1 c H1),
        (exposed_match plat server folder file req2 c H2). reflexivity.
    + rewrite (entry_match plat server name locator req1 c H1),
        (entry_match plat server name locator req2 c H2). reflexivity.
Qed.

Lemma X1_witness :
  handle Sample.plat Sample.server (Entry "main" "src/main.ts") (Sample.get "/main") ∅
  = handle Sample.plat Sample.server (Entry "main" "src/main.ts")
      (Sample.get "/mainframe/app.js?t=1") ∅.
Proof.
  apply X1_only_the_prefix_counts. split; intros _.
  - exists "/mainframe/app.js?t=1". split; [reflexivity|].
    exists "frame/app.js?t=1". reflexivity.
  - apply sample_matches.
Defined.

(** ** Exposed files *)

Lemma transformsOf_app (t1 t2 : list Event) :
  transformsOf (t1 ++ t2) = transformsOf t1 ++ transformsOf t2.
Proof. apply omap_app. Qed.

Lemma responseOf_app (t1 t2 : list Event) :
  responseOf (t1 ++ t2) = responseOf t1 ++ responseOf t2.
Proof. apply List.filter_app. Qed.

(** X2: an exposed file is never cached: each of any number of matching
    requests asks the host again for the transform of the same locator and
    sends what it answers, and the middleware neither reads nor writes the
    entry cache. *)
Theorem X2_exposed_file_never_cached plat server folder file
    (reqs : list IncomingMessage) (c : gmap string string) :
  Forall (fun req => matches req ("/" +:+ file)) reqs ->
  let run := serve plat server
               (List.map (fun req => (ExposedFile folder file, req)) reqs) c in
  transformsOf (traceOf run)
  = List.repeat (folder +:+ "/" +:+ file) (List.length reqs)
  /\ responseOf (traceOf run)
     = List.concat (List.repeat
         [SetHeader contentType javascript;
          End_ (nullish (option_map code
                  (transformRequest server (folder +:+ "/" +:+ file))) EmptyString)]
         (List.length reqs))
  /\ lookupsOf (traceOf run) = []
  /\ cacheOf run = c
  /\ forall req (c' : gmap string string),
       traceOf (handle plat server (ExposedFile folder file) req c')
       = traceOf (handle plat server (ExposedFile folder file) req c).
Proof.
  intros Hall run. unfold run. clear run.
  assert (Hfour :
    transformsOf (traceOf (serve plat server
        (List.map (fun req => (ExposedFile folder file, req)) reqs) c))
    = List.repeat (folder +:+ "/" +:+ file) (List.length reqs)
    /\ responseOf (traceOf (serve plat server
          (List.map (fun req => (ExposedFile folder file, req)) reqs) c))
       = List.concat (List.repeat
           [SetHeader contentType javascript;
            End_ (nullish (option_map code
                    (transformRequest server (folder +:+ "/" +:+ file))) EmptyString)]
           (List.length reqs))
    /\ lookupsOf (traceOf (serve plat server
          (List.map (fun req => (ExposedFile folder file, req)) reqs) c)) = []
    /\ cacheOf (serve plat server
          (List.map (fun req => (ExposedFile folder file, req)) reqs) c) = c).
  { induction Hall as [|req reqs Hm _ IH]; [repeat split|].
    cbn [List.map List.length List.repeat List.concat].
    destruct (serve_cons plat server (ExposedFile folder file) req
                (List.map (fun req => (ExposedFile folder file, req)) reqs) c)
      as [Ht Hc].
    assert (Hsame : cacheOf (handle plat server (ExposedFile folder file) req c) = c).
    { rewrite (exposed_match plat server folder file req c Hm). reflexivity. }
    rewrite Ht, Hc, Hsame.
    destruct IH as (IH1 & IH2 & IH3 & IH4).
    rewrite transformsOf_app, responseOf_app, lookupsOf_app, IH1, IH2, IH3, IH4.
    rewrite (exposed_match plat server folder file req c Hm).
    repeat split. }
  destruct Hfour as (H1 & H2 & H3 & H4).
  split; [exact H1 | split; [exact H2 | split; [exact H3 | split; [exact H4|]]]].
  intros req c'. destruct (urlMismatch req ("/" +:+ file)) eqn:Hu.
  - apply urlMismatch_not_matches in Hu.
    rewrite !(exposed_mismatch plat server folder file req _ Hu). reflexivity.
  - apply urlMismatch_matches in Hu.
    rewrite !(exposed_match plat server folder file req _ Hu). reflexivity.
Qed.

Lemma X2_witness :
  transformsOf (traceOf (serve Sample.plat Sample.server
    (List.map (fun req => (ExposedFile "public" "/proj/a.js", req))
       [Sample.get "//proj/a.js"; Sample.get "//proj/a.js"; Sample.get "//proj/a.js"])
    ∅))
  = ["public//proj/a.js"; "public//proj/a.js"; "public//proj/a.js"].
Proof.
  apply (X2_exposed_file_never_cached Sample.plat Sample.server "public" "/proj/a.js"
           [Sample.get "//proj/a.js"; Sample.get "//proj/a.js"; Sample.get "//proj/a.js"]
           ∅).
  repeat constructor; apply sample_matches.
Defined.

(** ** Replays *)

Lemma serveEntry_cons plat name locator server req reqs (c : gmap string string) :
  traceOf (serveEntry plat name locator ((server, req) :: reqs) c) =
    traceOf (handle plat server (Entry name locator) req c) ++
    traceOf (serveEntry plat name locator reqs
               (cacheOf (handle plat server (Entry name locator) req c)))
  /\ cacheOf (serveEntry plat name locator ((server, req) :: reqs) c) =
     cacheOf (serveEntry plat name locator reqs
                (cacheOf (handle plat server (Entry name locator) req c))).
Proof.
  simpl. unfold bind, traceOf, cacheOf.
  destruct (handle plat server (Entry name locator) req c) as [[[] c1] t1]. simpl.
  destruct (serveEntry plat name locator reqs c1) as [[[] c2] t2]. simpl. auto.
Qed.

(** Requests for a bound entry, one after the other. *)
Lemma replays plat name locator (reqs : list (ViteDevServer * IncomingMessage))
    (c : gmap string string) (body : string) :
  c !! name = Some body ->
  Forall (fun r => matches (snd r) ("/" +:+ name)) reqs ->
  let run := serveEntry plat name locator reqs c in
  responseOf (traceOf run)
  = List.concat (List.repeat
      [SetHeader contentType
         (if startsWith body cssBundleMarker then css else javascript);
       End_ body]
      (List.length reqs))
  /\ lookupsOf (traceOf run) = []
  /\ transformsOf (traceOf run) = []
  /\ cacheOf run = c.
Proof.
  intros Hc Hall run. unfold run. clear run.
  induction Hall as [|[server req] reqs Hm _ IH]; [repeat split|].
  simpl in Hm.
  cbn [List.length List.repeat List.concat].
  destruct (serveEntry_cons plat name locator server req reqs c) as [Ht Hcache].
  pose proof (entry_hit plat server name locator req c body Hm Hc) as Hhit.
  assert (Hsame : cacheOf (handle plat server (Entry name locator) req c) = c).
  { rewrite Hhit. reflexivity. }
  rewrite Ht, Hcache, Hsame.
  destruct IH as (IH1 & IH2 & IH3 & IH4).
  rewrite responseOf_app, lookupsOf_app, transformsOf_app, IH1, IH2, IH3, IH4, Hhit.
  repeat split.
Qed.

(** A request for a bound entry is answered before any [await]: it joins no
    queue and writes nothing to the cache. *)
Lemma arrive_hit plat server name locator req (n : Node) body :
  entryCache n !! name = Some body ->
  matches req ("/" +:+ name) ->
  runTask plat server (Arrive (Entry name locator) req) n
  = (n, [ConsoleDebug [LStr ("Serving cached entry for " +:+ name)];
         SetHeader contentType
           (if startsWith body cssBundleMarker then css else javascript);
         End_ body]).
Proof.
  intros Hc Hm. apply urlMismatch_matches in Hm.
  destruct n as [c fl]. cbn [runTask entryCache inFlight call] in *.
  unfold entryMiddleware. rewrite Hm.
  unfold bind, cacheHas, cacheGet, emit, finished, await, ret. cbv beta iota zeta.
  rewrite bool_decide_eq_true_2 by eauto. cbv beta iota zeta. rewrite Hc.
  cbn. rewrite app_nil_r. reflexivity.
Qed.

Lemma afterAwait_keepsBinding plat server h name :
  match h with Entry name' _ => name' <> name | ExposedFile _ _ => True end ->
  keepsBinding name (afterAwait plat server h).
Proof.
  intros Hne c body Hc. destruct h as [folder file | name' locator]; cbn [afterAwait].
  - exact Hc.
  - rewrite entryAfterAwait_run.
    destruct (takesCssBranch plat server locator); unfold cacheOf; cbn [fst snd].
    + rewrite lookup_insert_ne by exact Hne. exact Hc.
    + destruct (negb (String.eqb (codeOf server locator) EmptyString)); [|exact Hc].
      rewrite lookup_insert_ne by exact Hne. exact Hc.
Qed.

(** One task keeps a binding that the waiting closures keep. *)
Lemma runTask_keepsBinding plat server (t : Task) (n : Node) name body :
  entryCache n !! name = Some body ->
  Forall (keepsBinding name) (inFlight n) ->
  entryCache (fst (runTask plat server t n)) !! name = Some body
  /\ Forall (keepsBinding name) (inFlight (fst (runTask plat server t n))).
Proof.
  intros Hc Hfl. destruct t as [h req | i | i]; cbn [runTask].
  - destruct (call_first_part plat server h req (entryCache n)) as [Hsame _].
    pose proof (call_rest plat server h req (entryCache n)) as Hrest.
    pose proof (hit_no_await plat server h req (entryCache n)) as Hhit.
    destruct (call plat server h req (entryCache n)) as [[rest c] trace].
    unfold cacheOf in Hsame. cbn [fst snd entryCache inFlight] in *. subst c.
    split; [exact Hc|]. apply Forall_app. split; [exact Hfl|].
    destruct rest as [k|]; [|constructor].
    rewrite (Hrest k eq_refl). constructor; [|constructor].
    apply afterAwait_keepsBinding.
    destruct h as [folder file | name' locator]; [exact I|].
    intros ->.
    assert (Hw : ~ awaits (Entry name locator) (entryCache n)).
    { cbn [awaits]. rewrite Hc. discriminate. }
    specialize (Hhit Hw). discriminate.
  - destruct (inFlight n !! i) as [k|] eqn:Hi; cbn [fst]; [|auto].
    assert (Hk : keepsBinding name k).
    { rewrite List.Forall_forall in Hfl. apply Hfl.
      apply list_elem_of_In. eapply list_elem_of_lookup_2. exact Hi. }
    specialize (Hk (entryCache n) body Hc). unfold cacheOf in Hk.
    destruct (k (entryCache n)) as [[[] c] trace]. cbn [fst snd entryCache inFlight] in *.
    split; [exact Hk|]. apply Forall_delete. exact Hfl.
  - cbn [fst entryCache inFlight]. split; [exact Hc|]. apply Forall_delete. exact Hfl.
Qed.

Lemma runSchedule_keepsBinding plat (schedule : list (ViteDevServer * Task)) name body :
  forall n : Node,
    entryCache n !! name = Some body ->
    Forall (keepsBinding name) (inFlight n) ->
    entryCache (fst (runSchedule plat schedule n)) !! name = Some body
    /\ Forall (keepsBinding name) (inFlight (fst (runSchedule plat schedule n))).
Proof.
  induction schedule as [|[server t] schedule IH]; intros n Hc Hfl; [auto|].
  cbn [runSchedule].
  destruct (runTask_keepsBinding plat server t n name body Hc Hfl) as [Hc1 Hfl1].
  destruct (runTask plat server t n) as [n1 trace1]. cbn [fst] in *.
  specialize (IH n1 Hc1 Hfl1).
  destruct (runSchedule plat schedule n1) as [n2 trace2]. exact IH.
Qed.

(** A request that passed the cache test before the name was bound is not
    held back by the binding: when it resumes it binds the name again, to
    what the host answers then.  Two requests for [main] arrive while the
    cache is empty; the first resumes and binds the code of the module; the
    second resumes once the host has another module and binds that. *)
Example binding_rewritten_by_a_request_in_flight :
  let schedule :=
    [(Sample.server, Arrive (Entry "main" "src/main.ts") (Sample.get "/main"));
     (markedServer, Arrive (Entry "main" "src/main.ts") (Sample.get "/main"));
     (Sample.server, Resume 0)] in
  let bound := fst (runSchedule Sample.plat schedule {| entryCache := ∅; inFlight := [] |}) in
  entryCache bound !! "main" = Some "console.log(1);"
  /\ List.length (inFlight bound) = 1
  /\ entryCache (fst (runSchedule Sample.plat [(markedServer, Resume 0)] bound)) !! "main"
     = Some "// type: cssBundle is what the replay looks for".
Proof. repeat split. Qed.

(** X3: a cached body outlives the module it came from.  Once a name is
    bound in the entry cache and no closure that waits on its [await] can
    write that name (none waits, or those that wait belong to exposed files
    and to entries of other names), the binding is final: over every
    schedule of later tasks, requests of any kind arriving, resuming or
    losing their promise, the host in any state at each task, the name stays
    bound to the same body, and a matching request for the entry that
    arrives then is answered with that body, with the content type read off
    its first characters, before any [await] and without any call to the
    host; it joins no queue and leaves the cache as it is.  In particular
    requests for the entry run one after the other are all answered with the
    body and none refreshes it. *)
Theorem X3_cached_body_outlives_the_module plat name (body : string) (n : Node) :
  entryCache n !! name = Some body ->
  Forall (keepsBinding name) (inFlight n) ->
  (forall (schedule : list (ViteDevServer * Task)) server locator req,
     matches req ("/" +:+ name) ->
     let later := fst (runSchedule plat schedule n) in
     entryCache later !! name = Some body
     /\ runTask plat server (Arrive (Entry name locator) req) later
        = (later,
           [ConsoleDebug [LStr ("Serving cached entry for " +:+ name)];
            SetHeader contentType
              (if startsWith body cssBundleMarker then css else javascript);
            End_ body]))
  /\ (forall locator (reqs : list (ViteDevServer * IncomingMessage)),
        Forall (fun r => matches (snd r) ("/" +:+ name)) reqs ->
        let run := serveEntry plat name locator reqs (entryCache n) in
        responseOf (traceOf run)
        = List.concat (List.repeat
            [SetHeader contentType
               (if startsWith body cssBundleMarker then css else javascript);
             End_ body]
            (List.length reqs))
        /\ lookupsOf (traceOf run) = []
        /\ transformsOf (traceOf run) = []
        /\ cacheOf run = entryCache n).
Proof.
  intros Hc Hfl. split.
  - intros schedule server locator req Hm later.
    destruct (runSchedule_keepsBinding plat schedule name body n Hc Hfl) as [Hlater _].
    split; [exact Hlater|].
    apply arrive_hit; assumption.
  - intros locator reqs Hall. apply replays; assumption.
Qed.

Lemma X3_witness :
  let bound := {| entryCache := cacheOf (Sample.request "main" "src/main.ts" "/main" ∅);
                  inFlight := [] |} in
  let later :=
    fst (runSchedule Sample.plat
           [(Sample.server, Arrive (Entry "virtual:css" "virtual:css")
                              (Sample.get "/virtual:css"));
            (emptiedServer, Arrive (Entry "main" "src/main.ts") (Sample.get "/main"));
            (markedServer, Resume 0);
            (markedServer, Arrive (Entry "empty" "src/empty.ts") (Sample.get "/empty"));
            (Sample.server, Reject 0)]
           bound) in
  (entryCache later !! "main" = Some "console.log(1);"
   /\ runTask Sample.plat markedServer
        (Arrive (Entry "main" "src/main.ts") (Sample.get "/main?t=2")) later
      = (later,
         [ConsoleDebug [LStr "Serving cached entry for main"];
          SetHeader "Content-Type" "application/javascript";
          End_ "console.log(1);"]))
  /\ responseOf (traceOf (serveEntry Sample.plat "main" "src/main.ts"
        [(emptiedServer, Sample.get "/main"); (markedServer, Sample.get "/main?t=2")]
        (cacheOf (Sample.request "main" "src/main.ts" "/main" ∅))))
     = [SetHeader "Content-Type" "application/javascript"; End_ "console.log(1);";
        SetHeader "Content-Type" "application/javascript"; End_ "console.log(1);"].
Proof.
  pose proof (X3_cached_body_outlives_the_module Sample.plat "main" "console.log(1);"
                {| entryCache := cacheOf (Sample.request "main" "src/main.ts" "/main" ∅);
                   inFlight := [] |} eq_refl (List.Forall_nil _)) as [Hany Hseq].
  split.
  - apply (Hany _ markedServer "src/main.ts" (Sample.get "/main?t=2")).
    exists "/main?t=2". split; [reflexivity | exists "?t=2"; reflexivity].
  - apply (Hseq "src/main.ts"
             [(emptiedServer, Sample.get "/main"); (markedServer, Sample.get "/main?t=2")]).
    repeat constructor.
    + apply sample_matches.
    + exists "/main?t=2". split; [reflexivity | exists "?t=2"; reflexivity].
Defined.

(** X4: the content type of a replay.  For an entry that gets cached, the
    first answer and the answer replayed from the cache carry the same
    [Content-Type] exactly when the entry is not CSS-only and its code does
    not begin with the bundle marker: a script whose code begins with
    [// type: cssBundle] is first sent as [application/javascript] and
    replayed as [text/css]. *)
Theorem X4_replay_content_type plat server name locator req1 req2
    (c : gmap string string) :
  cacheable plat server locator ->
  matches req1 ("/" +:+ name) ->
  matches req2 ("/" +:+ name) ->
  c !! name = None ->
  let first := handle plat server (Entry name locator) req1 c in
  let second := handle plat server (Entry name locator) req2 (cacheOf first) in
  (headersOf (traceOf first) = headersOf (traceOf second)
   <-> ~ cssOnly plat server locator /\
       ~ beginsWith (codeOf server locator) cssBundleMarker)
  /\ (~ cssOnly plat server locator ->
      beginsWith (codeOf server locator) cssBundleMarker ->
      headersOf (traceOf first) = [(contentType, javascript)]
      /\ responseOf (traceOf second)
         = [SetHeader contentType css; End_ (codeOf server locator)]).
Proof.
  intros Hcan Hm1 Hm2 Hc first second.
  destruct (takesCssBranch plat server locator) eqn:Hb.
  - pose proof Hb as Hcss. apply takesCssBranch_cssOnly in Hcss.
    pose proof (entry_miss_css plat server name locator req1 c Hm1 Hc Hb) as H1.
    fold first in H1.
    assert (Hstored : cacheOf first !! name
              = Some (cssBundleOf (importedFilesOf plat (getModuleByUrl server locator)))).
    { rewrite H1. apply lookup_insert_eq. }
    pose proof (entry_hit plat server name locator req2 (cacheOf first) _ Hm2 Hstored)
      as H2.
    fold second in H2.
    rewrite cssBundle_not_marked in H2 by apply Hcss.
    split; [|tauto]. rewrite H1, H2. split; [discriminate | tauto].
  - pose proof Hb as Hjs. apply takesCssBranch_not_cssOnly in Hjs.
    destruct Hcan as [Hcss | Hne]; [contradiction|].
    pose proof (entry_miss_js plat server name locator req1 c Hm1 Hc Hb) as H1.
    fold first in H1.
    apply String.eqb_neq in Hne. rewrite Hne in H1. simpl in H1.
    assert (Hstored : cacheOf first !! name = Some (codeOf server locator)).
    { rewrite H1. apply lookup_insert_eq. }
    pose proof (entry_hit plat server name locator req2 (cacheOf first) _ Hm2 Hstored)
      as H2.
    fold second in H2.
    split.
    + rewrite H1, H2. unfold headersOf, traceOf. simpl.
      destruct (startsWith (codeOf server locator) cssBundleMarker) eqn:Hs.
      * apply startsWith_beginsWith in Hs. split; [discriminate | tauto].
      * apply startsWith_false in Hs. split; [tauto | reflexivity].
    + intros _ Hmark. apply startsWith_beginsWith in Hmark.
      rewrite H1, H2, Hmark. split; reflexivity.
Qed.

Lemma X4_witness :
  responseOf (traceOf (handle Sample.plat markedServer (Entry "main" "src/main.ts")
     (Sample.get "/main")
     (cacheOf (handle Sample.plat markedServer (Entry "main" "src/main.ts")
                 (Sample.get "/main") ∅))))
  = [SetHeader "Content-Type" "text/css";
     End_ "// type: cssBundle is what the replay looks for"].
Proof.
  apply (X4_replay_content_type Sample.plat markedServer "main" "src/main.ts"
           (Sample.get "/main") (Sample.get "/main") ∅).
  - right. discriminate.
  - apply sample_matches.
  - apply sample_matches.
  - apply lookup_empty.
  - apply not_virtual_not_cssOnly. reflexivity.
  - exists " is what the replay looks for". reflexivity.
Defined.

(** ** Imports without a file *)

(** X8: an imported module without a file counts for nothing: it is left
    out of the CSS-only decision and of the bundle.  Two module graphs that
    differ by one such import of the entry's module are answered alike. *)
Theorem X8_fileless_imports_are_ignored plat server1 server2 name locator req
    (c : gmap string string) (self : option string)
    (transformed : option TransformResult)
    (before after : list ModuleNode) (ghost : ModuleNode) :
  file ghost = None ->
  getModuleByUrl server1 locator
  = Some (mkModuleNode self transformed (before ++ ghost :: after)) ->
  getModuleByUrl server2 locator
  = Some (mkModuleNode self transformed (before ++ after)) ->
  importedFilesOf plat (getModuleByUrl server1 locator)
  = importedFilesOf plat (getModuleByUrl server2 locator)
  /\ handle plat server1 (Entry name locator) req c
     = handle plat server2 (Entry name locator) req c.
Proof.
  intros Hghost H1 H2.
  assert (Hfiles : importedFilesOf plat (getModuleByUrl server1 locator)
                   = importedFilesOf plat (getModuleByUrl server2 locator)).
  { rewrite H1, H2. unfold importedFilesOf. simpl.
    rewrite !omap_app. simpl. rewrite Hghost. reflexivity. }
  split; [exact Hfiles|].
  destruct (urlMismatch req ("/" +:+ name)) eqn:Hu.
  - apply urlMismatch_not_matches in Hu.
    rewrite !(entry_mismatch plat _ name locator req c Hu). reflexivity.
  - apply urlMismatch_matches in Hu.
    rewrite !(entry_match plat _ name locator req c Hu).
    destruct (c !! name); [reflexivity|].
    assert (Hafter : entryAfterAwait plat server1 name locator c
                     = entryAfterAwait plat server2 name locator c).
    { unfold entryAfterAwait. cbv zeta. rewrite Hfiles, H1, H2. reflexivity. }
    rewrite Hafter. reflexivity.
Qed.

Lemma X8_witness :
  handle Sample.plat Sample.server (Entry "virtual:css" "virtual:css")
    (Sample.get "/virtual:css") ∅
  = handle Sample.plat trimmedServer (Entry "virtual:css" "virtual:css")
      (Sample.get "/virtual:css") ∅.
Proof.
  apply (X8_fileless_imports_are_ignored Sample.plat Sample.server trimmedServer
           "virtual:css" "virtual:css" (Sample.get "/virtual:css") ∅
           None (Some {| code := ":root { --color: red; }" |})
           [Sample.leaf "/proj/a.css"] [Sample.leaf "/proj/b.css"]
           (mkModuleNode None None [])); reflexivity.
Defined.

(** ** The order of the routes *)

Lemma filter_none {A} (f : A -> bool) (l : list A) :
  Forall (fun a => f a = false) l -> List.filter f l = [].
Proof. induction 1 as [|a l Ha _ IH]; simpl; [|rewrite Ha]; auto. Qed.

Lemma filter_all {A} (f : A -> bool) (l : list A) :
  Forall (fun a => f a = true) l -> List.filter f l = l.
Proof. induction 1 as [|a l Ha _ IH]; simpl; [|rewrite Ha, IH]; auto. Qed.

Lemma filter_twice {A} (f g : A -> bool) (l : list A) :
  List.filter g (List.filter f l) = List.filter (fun a => f a && g a) l.
Proof.
  induction l as [|a l IH]; simpl; [reflexivity|].
  destruct (f a); simpl; [destruct (g a)|]; rewrite IH; reflexivity.
Qed.

Lemma ownEntries_noIndexKey (o : JsObject.t) :
  noIndexKey o -> JsObject.ownEntries o = o.
Proof.
  intros H. unfold JsObject.ownEntries.
  rewrite (filter_none _ o H). simpl. apply filter_all.
  eapply Forall_impl; [exact H|]. intros p Hp. simpl in Hp. rewrite Hp. reflexivity.
Qed.

(** On plain keys the filter of fp-ts is the filter of lists. *)
Lemma filterWithIndex_plainKeys (p : string -> string -> bool) (fa : JsObject.t) :
  JsObject.wf fa -> plainKeys fa ->
  JsObject.filterWithIndex p fa = List.filter (fun kv => p (fst kv) (snd kv)) fa.
Proof.
  intros Hwf [Hno Hproto]. rewrite (filterWithIndex_eq p fa Hwf).
  rewrite (ownEntries_noIndexKey fa Hno).
  destruct (forallb (fun kv => p (fst kv) (snd kv)) fa) eqn:Hall.
  - symmetry. apply filter_all, List.Forall_forall.
    rewrite forallb_forall in Hall. exact Hall.
  - apply List.filter_ext_in. intros kv Hin.
    rewrite List.Forall_forall in Hproto. rewrite (Hproto kv Hin).
    apply andb_true_r.
Qed.

Lemma plainKeys_filter (f : string * string -> bool) (o : JsObject.t) :
  plainKeys o -> plainKeys (List.filter f o).
Proof.
  unfold plainKeys, noIndexKey. rewrite !List.Forall_forall. intros [H H'].
  split; intros p Hp; apply filter_In in Hp as [Hp _]; auto.
Qed.

Lemma wf_filter (f : string * string -> bool) (o : JsObject.t) :
  JsObject.wf o -> JsObject.wf (List.filter f o).
Proof. apply filter_keys_NoDup. Qed.

(** X9: the order in which the entries are warmed up and routed.  When no
    key of the entry map is integer-like or [__proto__], the virtual entries
    come first, in the order of the map, then the other entries that are no
    [index.html] page, in the order of the map; the routes of the exposed
    files come before all of them. *)
Theorem X9_virtual_entries_first plat options server (c0 : gmap string string) :
  JsObject.wf (input server) ->
  plainKeys (input server) ->
  let trace := traceOf (configureServer plat options server c0) in
  routedEntries (input server) = virtualFirst (input server)
  /\ routesOf trace
     = exposedRoutes plat (nullish (options ≫= exposedFolders) [])
       ++ List.map (fun e => ("/" +:+ fst e, Entry (fst e) (snd e)))
            (virtualFirst (input server))
  /\ warmupsOf trace = List.map snd (virtualFirst (input server)).
Proof.
  intros Hwf Hno trace.
  assert (Horder : routedEntries (input server) = virtualFirst (input server)).
  { assert (HV : virtualInputs (input server)
                 = List.filter (fun e => startsWith (snd e) "virtual:") (input server)).
    { unfold virtualInputs, JsObject.filter.
      apply filterWithIndex_plainKeys; assumption. }
    assert (HNV : nonVirtualInputs (input server)
                  = List.filter (fun e => negb (startsWith (snd e) "virtual:")
                                          && negb (endsWith (snd e) "index.html"))
                      (input server)).
    { unfold nonVirtualInputs, JsObject.filter.
      rewrite (filterWithIndex_plainKeys _ (input server) Hwf Hno).
      rewrite filterWithIndex_plainKeys
        by (apply wf_filter, Hwf || apply plainKeys_filter, Hno).
      apply filter_twice. }
    rewrite routedEntries_eq by exact Hwf. rewrite HV, HNV.
    rewrite (ownEntries_noIndexKey (List.filter _ (input server)))
      by (apply plainKeys_filter, Hno).
    rewrite (ownEntries_noIndexKey (List.filter _ (input server)))
      by (apply plainKeys_filter, Hno).
    apply ownEntries_noIndexKey.
    apply Forall_app. split; apply plainKeys_filter, Hno. }
  split; [exact Horder | split].
  - unfold trace. rewrite routesOf_configureServer. unfold entryRoutes.
    rewrite Horder. reflexivity.
  - unfold trace. rewrite warmupsOf_configureServer, Horder. reflexivity.
Qed.

Lemma sample_plainKeys : plainKeys (input Sample.server).
Proof. split; repeat constructor. Defined.

Lemma X9_witness :
  warmupsOf (traceOf (configureServer Sample.plat Sample.options Sample.server ∅))
  = ["virtual:main"; "virtual:css"; "src/main.ts"; "src/empty.ts"].
Proof.
  apply (X9_virtual_entries_first Sample.plat Sample.options Sample.server ∅
           sample_wf sample_plainKeys).
Defined.

(** ** What [configureServer] calls *)

Lemma omap_none {A B} (f : A -> option B) (l : list A) :
  Forall (fun a => f a = None) l -> omap f l = [].
Proof. induction 1 as [|a l Ha _ IH]; cbn; [|rewrite Ha]; auto. Qed.

Lemma globsOf_exposeTrace plat folder :
  globsOf (exposeTrace plat folder) = [folder +:+ "/**/*"].
Proof.
  unfold exposeTrace, globsOf. cbn. f_equal.
  apply omap_none, List.Forall_forall. intros e He.
  apply in_map_iff in He as (file & <- & _). reflexivity.
Qed.

Lemma globsOf_foldersTrace plat options :
  globsOf (foldersTrace plat options)
  = List.map (fun folder => folder +:+ "/**/*") (nullish (options ≫= exposedFolders) []).
Proof.
  unfold foldersTrace. destruct (options ≫= exposedFolders) as [folders|]; [|reflexivity].
  unfold globsOf. cbn. rewrite omap_flat_map.
  induction folders as [|f fs IH]; [reflexivity|].
  cbn [List.flat_map List.map]. rewrite IH.
  fold (globsOf (exposeTrace plat f)). rewrite globsOf_exposeTrace. reflexivity.
Qed.

(** The events of the hook: logs, enumerations, registrations, warm-ups. *)
Lemma configureServer_events plat options server (c0 : gmap string string) :
  Forall (fun e => match e with
                   | ConsoleDebug _ | GlobSync _ | Use _ _
                   | WarmupRequest _ | Catch _ => True
                   | _ => False
                   end)
    (traceOf (configureServer plat options server c0)).
Proof.
  rewrite configureServer_run. unfold traceOf. cbn [snd].
  repeat (apply Forall_app; split).
  - repeat constructor.
  - unfold foldersTrace. destruct (options ≫= exposedFolders) as [folders|]; [|constructor].
    constructor; [exact I|]. apply List.Forall_forall. intros e He.
    apply in_flat_map in He as (folder & _ & He). destruct He as [<- | He]; [exact I|].
    apply in_map_iff in He as (file & <- & _). exact I.
  - apply List.Forall_forall. intros e He.
    apply in_flat_map in He as (entry & _ & He).
    destruct He as [<- | [<- | [<- | [<- | []]]]]; exact I.
Qed.

(** X10: what the hook does at start-up.  It enumerates each configured
    exposed folder once, in order, with the pattern [<folder>/**/*], and
    not at all without [options] or without [exposedFolders]; it never asks
    the host for a module or a transform, touches no response, and leaves an
    empty entry cache, whatever cache there was. *)
Theorem X10_startup_calls plat options server (c0 : gmap string string) :
  let run := configureServer plat options server c0 in
  globsOf (traceOf run)
  = List.map (fun folder => folder +:+ "/**/*") (nullish (options ≫= exposedFolders) [])
  /\ (options ≫= exposedFolders = None ->
      globsOf (traceOf run) = [] /\ routesOf (traceOf run) = entryRoutes (input server))
  /\ lookupsOf (traceOf run) = []
  /\ transformsOf (traceOf run) = []
  /\ responseOf (traceOf run) = []
  /\ nextCalls (traceOf run) = 0
  /\ cacheOf run = ∅.
Proof.
  intros run.
  pose proof (configureServer_events plat options server c0) as Hev. fold run in Hev.
  assert (Hglobs : globsOf (traceOf run)
    = List.map (fun folder => folder +:+ "/**/*") (nullish (options ≫= exposedFolders) [])).
  { unfold run. rewrite configureServer_run. unfold traceOf. cbn [snd].
    unfold globsOf. rewrite !omap_app. fold (globsOf (foldersTrace plat options)).
    rewrite globsOf_foldersTrace. cbn.
    rewrite (omap_none _ (List.flat_map registerTrace _)).
    - apply app_nil_r.
    - apply List.Forall_forall. intros e He.
      apply in_flat_map in He as (entry & _ & He).
      destruct He as [<- | [<- | [<- | [<- | []]]]]; reflexivity. }
  split; [exact Hglobs | split; [|split; [|split; [|split; [|split]]]]].
  - intros Hnone. split.
    + rewrite Hglobs, Hnone. reflexivity.
    + unfold run. rewrite routesOf_configureServer, Hnone. reflexivity.
  - apply omap_none. eapply Forall_impl; [exact Hev|].
    intros e He. destruct e; try contradiction; reflexivity.
  - apply omap_none. eapply Forall_impl; [exact Hev|].
    intros e He. destruct e; try contradiction; reflexivity.
  - apply filter_none. eapply Forall_impl; [exact Hev|].
    intros e He. destruct e; try contradiction; reflexivity.
  - unfold nextCalls. rewrite filter_none; [reflexivity|].
    eapply Forall_impl; [exact Hev|].
    intros e He. destruct e; try contradiction; reflexivity.
  - unfold run. rewrite configureServer_run. reflexivity.
Qed.

(** ** Entries do not disturb one another *)

(** What the entry middleware does depends on the cache only through the
    binding of its own name. *)
Lemma entry_trace_by_own_binding plat server name locator req
    (c1 c2 : gmap string string) :
  c1 !! name = c2 !! name ->
  traceOf (handle plat server (Entry name locator) req c1)
  = traceOf (handle plat server (Entry name locator) req c2).
Proof.
  intros Heq. destruct (urlMismatch req ("/" +:+ name)) eqn:Hu.
  - apply urlMismatch_not_matches in Hu.
    rewrite !(entry_mismatch plat server name locator req _ Hu). reflexivity.
  - apply urlMismatch_matches in Hu.
    rewrite !(entry_match plat server name locator req _ Hu), Heq.
    destruct (c2 !! name); [reflexivity|].
    rewrite !entryAfterAwait_run.
    destruct (takesCssBranch plat server locator); reflexivity.
Qed.

(** The only binding a request can change is that of the entry it is for. *)
Lemma handle_other_bindings plat server h req (c : gmap string string) name :
  (forall locator, h <> Entry name locator) ->
  cacheOf (handle plat server h req c) !! name = c !! name.
Proof.
  intros Hother. destruct h as [folder file | name' locator].
  - destruct (urlMismatch req ("/" +:+ file)) eqn:Hu.
    + apply urlMismatch_not_matches in Hu.
      rewrite (exposed_mismatch plat server folder file req c Hu). reflexivity.
    + apply urlMismatch_matches in Hu.
      rewrite (exposed_match plat server folder file req c Hu). reflexivity.
  - assert (Hne : name' <> name) by (intros ->; exact (Hother locator eq_refl)).
    destruct (urlMismatch req ("/" +:+ name')) eqn:Hu.
    + apply urlMismatch_not_matches in Hu.
      rewrite (entry_mismatch plat server name' locator req c Hu). reflexivity.
    + apply urlMismatch_matches in Hu.
      rewrite (entry_match plat server name' locator req c Hu).
      destruct (c !! name'); [reflexivity|].
      rewrite entryAfterAwait_run.
      destruct (takesCssBranch plat server locator); unfold cacheOf; simpl.
      * apply lookup_insert_ne, Hne.
      * destruct (negb (String.eqb (codeOf server locator) EmptyString));
          [apply lookup_insert_ne, Hne | reflexivity].
Qed.

(** X11: entries are cached apart.  Requests for exposed files and for
    entries of other names, however many, change neither the binding of an
    entry's name nor any call its middleware makes for the request that
    follows them. *)
Theorem X11_entries_do_not_interfere plat server name locator req
    (others : list (Middleware * IncomingMessage)) (c : gmap string string) :
  Forall (fun r => forall l, fst r <> Entry name l) others ->
  let before := cacheOf (serve plat server others c) in
  before !! name = c !! name
  /\ traceOf (handle plat server (Entry name locator) req before)
     = traceOf (handle plat server (Entry name locator) req c).
Proof.
  intros Hothers before.
  assert (Hbind : before !! name = c !! name).
  { unfold before. clear before. revert c.
    induction Hothers as [|[h r] others Hh _ IH]; intros c; [reflexivity|].
    destruct (serve_cons plat server h r others c) as [_ ->].
    rewrite IH. apply handle_other_bindings. exact Hh. }
  split; [exact Hbind|]. apply entry_trace_by_own_binding, Hbind.
Qed.

Lemma X11_witness :
  traceOf (handle Sample.plat Sample.server (Entry "main" "src/main.ts")
     (Sample.get "/main")
     (cacheOf (serve Sample.plat Sample.server
        [(Entry "virtual:css" "virtual:css", Sample.get "/virtual:css");
         (ExposedFile "public" "/proj/a.js", Sample.get "//proj/a.js");
         (Entry "virtual:main" "virtual:main", Sample.get "/virtual:main")] ∅)))
  = traceOf (handle Sample.plat Sample.server (Entry "main" "src/main.ts")
               (Sample.get "/main") ∅).
Proof.
  apply (X11_entries_do_not_interfere Sample.plat Sample.server "main" "src/main.ts"
           (Sample.get "/main")
           [(Entry "virtual:css" "virtual:css", Sample.get "/virtual:css");
            (ExposedFile "public" "/proj/a.js", Sample.get "//proj/a.js");
            (Entry "virtual:main" "virtual:main", Sample.get "/virtual:main")] ∅).
  repeat constructor; intros l H; discriminate H.
Defined.
